(** * django-shortuuidfield: [shortuuidfield/fields.py]

    A shallow embedding of the two model fields of the package,
    [ShortUUIDField] and [PrefixShortUUIDField], together with the parts
    of Python, Django, [uuid] and [shortuuid] that their methods call.

    - Python objects are values of [pyval]; a model instance is a finite
      map from attribute names to values, and [**kwargs] is a finite map
      from keyword names to values.
    - Exceptions and mutation are threaded through the monad [M]: a
      computation takes a state and returns either a value or a raised
      exception, together with the state reached (an exception does not
      roll the state back).
    - The operating system's randomness is an explicit entropy source in
      the state, consumed sixteen bytes at a time. *)

From Equations Require Import Equations.
From stdpp Require Import gmap strings list fin_maps.
From Stdlib Require Import NArith ZArith Ascii String.

Open Scope N_scope.

(** ** Python values, truthiness, exceptions *)

Inductive pyval : Type :=
| PyNone : pyval
| PyBool : bool -> pyval
| PyInt : Z -> pyval
| PyStr : string -> pyval.

Global Instance pyval_eq_dec : EqDecision pyval.
Proof. solve_decision. Defined.

(** [bool(value)]: [None], [False], [0] and the empty string are false. *)
Definition truthy (value : pyval) : bool :=
  match value with
  | PyNone => false
  | PyBool b => b
  | PyInt z => negb (z =? 0)%Z
  | PyStr s => negb (String.eqb s EmptyString)
  end.

Inductive exn : Type :=
| AttributeError
| TypeError
| ImportError
| OtherError (name : string).

Global Instance exn_eq_dec : EqDecision exn.
Proof. solve_decision. Defined.

Inductive result (A : Type) : Type :=
| Ok (a : A)
| Raise (e : exn).
Arguments Ok {A} a.
Arguments Raise {A} e.

(** ** The state-and-exception monad *)

Definition M (S A : Type) : Type := S -> result A * S.

Global Instance M_ret {S} : MRet (M S) := λ A a s, (Ok a, s).

Global Instance M_bind {S} : MBind (M S) := λ A B f m s,
  match m s with
  | (Ok a, s') => f a s'
  | (Raise e, s') => (Raise e, s')
  end.

Definition raise {S A} (e : exn) : M S A := λ s, (Raise e, s).

(** [try: body except e: handler]: only the named exception is caught,
    and the handler starts from the state the body had reached. *)
Definition try_except {S A} (body : M S A) (e : exn) (handler : M S A) : M S A :=
  λ s,
    match body s with
    | (Raise e', s') => if decide (e' = e) then handler s' else (Raise e', s')
    | r => r
    end.

(** ** The world a save runs in *)

(** The model instance: its attributes by name. *)
Abbreviation instance := (gmap string pyval).

(** The operating system's random source: the [n]-th read of sixteen
    bytes yields [source n] (reduced to 128 bits). *)
Record entropy : Type := { source : nat -> N; consumed : nat }.

Record world : Type := { model_instance : instance; urandom : entropy }.

(** [getattr(model_instance, name)] *)
Definition getattr (name : string) : M world pyval := λ w,
  match model_instance w !! name with
  | Some v => (Ok v, w)
  | None => (Raise AttributeError, w)
  end.

(** [setattr(model_instance, name, value)] *)
Definition setattr (name : string) (value : pyval) : M world unit := λ w,
  (Ok tt, {| model_instance := <[name := value]> (model_instance w);
             urandom := urandom w |}).

(** [os.urandom(16)], read as a big-endian integer. *)
Definition os_urandom16 : M world N := λ w,
  let e := urandom w in
  (Ok (source e (consumed e) mod 2 ^ 128),
   {| model_instance := model_instance w;
      urandom := {| source := source e; consumed := S (consumed e) |} |}).

(** ** [uuid] and [shortuuid] *)

(** Modelled from the spec: [uuid.uuid4()] of Python's standard library,
    which is not part of the sources: "a random 128-bit value". The sixteen random bytes are read as an integer; as in Python's
    [UUID(bytes=..., version=4)] the two variant bits are then set to
    [10] and the four version bits to [4] ([int &= ~m] is [N.ldiff int m]).
    The result is the UUID's [int]. *)
Definition UUID_version4 (int : N) : N :=
  let int := N.ldiff int (N.shiftl 0xc000 48) in
  let int := N.lor int (N.shiftl 0x8000 48) in
  let int := N.ldiff int (N.shiftl 0xf000 64) in
  N.lor int (N.shiftl 4 76).

Definition uuid4 : M world N :=
  bytes ← os_urandom16; mret (UUID_version4 bytes).

(** Modelled from the spec: the alphabet of the [shortuuid] package,
    which is not part of the sources: the 57 characters of the base57
    encoding, "chosen to avoid visually ambiguous characters": the
    digits and letters without [0], [1], [I], [O] and [l]. *)
Definition alphabet : string :=
  "23456789ABCDEFGHJKLMNPQRSTUVWXYZabcdefghijkmnopqrstuvwxyz".

Definition alpha_len : N := N.of_nat (String.length alphabet).

(** [alphabet[digit]] *)
Definition alphabet_at (digit : N) : ascii :=
  nth (N.to_nat digit) (list_ascii_of_string alphabet) "2"%char.

(** The digit loop of the encoder, least significant digit first:
    [while number: number, digit = divmod(number, alpha_len);
                   output += alphabet[digit]].
    It terminates because every round shortens the binary length of
    [number]. *)
Equations? int_to_digits (number : N) : list ascii
  by wf (N.to_nat (N.size number)) lt :=
  int_to_digits number with N.eq_dec number 0 => {
    | left _ := [];
    | right _ := alphabet_at (number mod alpha_len)
                 :: int_to_digits (number / alpha_len) }.
Proof.
  change alpha_len with 57.
  destruct (N.eq_dec (number / 57) 0) as [-> | Hq].
  - rewrite (N.size_log2 number) by done. simpl. lia.
  - rewrite !N.size_log2 by done.
    assert (57 <= number) as Hge.
    { destruct (N.le_gt_cases 57 number); [done |].
      rewrite N.div_small in Hq; done. }
    assert (N.log2 (number / 57) < N.log2 number); [| lia].
    apply N.le_lt_trans with (N.log2 (number / 2)).
    + apply N.log2_le_mono, N.div_le_compat_l. lia.
    + rewrite <- N.div2_div, N.div2_spec, N.log2_shiftr.
      assert (0 < N.log2 number) by (apply N.log2_pos; lia). lia.
Qed.

(** Modelled from the spec: the encoder of the [shortuuid] package,
    which is not part of the sources: "a positional encoding of
    an integer into a string using a 57-character alphabet" that
    "produces a fixed 22-character string for a 128-bit input". The
    digits are padded with [alphabet[0]] up to [padding] characters and
    written most significant first. *)
Definition int_to_string (number : N) (padding : nat) : string :=
  let output := int_to_digits number in
  let remainder := (padding - List.length output)%nat in
  string_of_list_ascii (rev (output ++ replicate remainder (alphabet_at 0))).

(** [shortuuid.encode(uuid)] *)
Definition shortuuid_encode (uuid_int : N) : string :=
  int_to_string uuid_int 22.

(** [shortuuid.uuid()]: the encoding of a fresh [uuid4]. *)
Definition shortuuid_uuid : M world string :=
  u ← uuid4; mret (shortuuid_encode u).

(** [s[:n]] *)
Fixpoint slice_to (n : nat) (s : string) : string :=
  match n, s with
  | S n', String c s' => String c (slice_to n' s')
  | _, _ => EmptyString
  end.

(** Every character of [s] is one of the 57 of [alphabet]. *)
Definition base57 (s : string) : Prop :=
  Forall (λ c, c ∈ list_ascii_of_string alphabet) (list_ascii_of_string s).

Definition base57b (s : string) : bool :=
  forallb (λ c, existsb (Ascii.eqb c) (list_ascii_of_string alphabet))
          (list_ascii_of_string s).

(** Python 2's [unicode(s)] and [str(s)] of a text: the same text. *)
Definition unicode (s : string) : pyval := PyStr s.
Definition str (s : string) : string := s.

(** ** Calling the base class *)

(** Python's binding of a call with positional arguments [args] and
    keywords [kwargs] to the parameters of the function called, given as
    the list of their names and defaults: positional
    arguments fill the parameters in order, keywords fill the ones they
    name, the others take their defaults. Too many positional arguments,
    a keyword naming a parameter that is already filled, and a keyword
    naming no parameter each raise [TypeError]. *)
Definition bind_call (signature : list (string * pyval))
    (args : list pyval) (kwargs : gmap string pyval)
  : result (gmap string pyval) :=
  let names := signature.*1 in
  if decide (List.length names < List.length args)%nat then Raise TypeError
  else if existsb (λ p, bool_decide (is_Some (kwargs !! p)))
                  (take (List.length args) names) then Raise TypeError
  else if negb (bool_decide (dom kwargs ⊆ list_to_set names)) then Raise TypeError
  else Ok (list_to_map (zip names args) ∪ kwargs ∪ list_to_map signature).

(** Modelled from the spec: Django's [CharField], the base class, which
    is not part of the sources: a persisted-string field, "a generic
    string field capability (max length, editability, blank-allowed,
    form-field construction)". Its constructor takes the "standard
    field-declaration parameters", whose names and defaults are the
    [signature]; the field keeps the values they were bound to. The
    attribute name is set when the field is attached to a record type. *)
Record CharField : Type := { options : gmap string pyval; attname : option string }.

Definition CharField_init (signature : list (string * pyval))
    (args : list pyval) (kwargs : gmap string pyval) : result CharField :=
  match bind_call signature args kwargs with
  | Ok opts => Ok {| options := opts; attname := None |}
  | Raise e => Raise e
  end.

Definition max_length (self : CharField) : option pyval := options self !! "max_length"%string.
Definition editable (self : CharField) : option pyval := options self !! "editable"%string.
Definition blank (self : CharField) : option pyval := options self !! "blank"%string.

(** Modelled from the spec: Django's attaching of the field to a record
    type under the attribute [name] ("the record instance's named
    attribute"), which is not part of the sources. *)
Definition CharField_contribute_to_class (self : CharField) (name : string) : CharField :=
  {| options := options self; attname := Some name |}.

(** [self.attname]; a field that was never attached has none. *)
Definition self_attname (self : CharField) : M world string :=
  match attname self with
  | Some name => mret name
  | None => raise AttributeError
  end.

(** Modelled from the spec: [pre_save] of the base class, which is not
    part of the sources: "the base field's own pre-persist resolution
    (which reads the record's current attribute value)". *)
Definition CharField_pre_save (self : CharField) (add : bool) : M world pyval :=
  name ← self_attname self; getattr name.

(** The parameters of Django's [Field.__init__] (Django 1.x), in order,
    with their defaults. [NOT_PROVIDED] and the empty containers are
    written [PyNone]: no statement below reads them. *)
Definition Field_signature : list (string * pyval) :=
  [ ("verbose_name", PyNone); ("name", PyNone); ("primary_key", PyBool false);
    ("max_length", PyNone); ("unique", PyBool false); ("blank", PyBool false);
    ("null", PyBool false); ("db_index", PyBool false); ("rel", PyNone);
    ("default", PyNone); ("editable", PyBool true); ("serialize", PyBool true);
    ("unique_for_date", PyNone); ("unique_for_month", PyNone);
    ("unique_for_year", PyNone); ("choices", PyNone); ("help_text", PyStr EmptyString);
    ("db_column", PyNone); ("db_tablespace", PyNone);
    ("auto_created", PyBool false); ("validators", PyNone);
    ("error_messages", PyNone) ]%string.

(** ** [class ShortUUIDField(CharField)] *)

Module ShortUUIDField.

Record t : Type := { auto : bool; super : CharField }.

(** [__init__(self, auto=True, *args, **kwargs)]; an omitted [auto] is
    [None] here and takes the default. *)
Definition init (signature : list (string * pyval)) (auto : option bool)
    (args : list pyval) (kwargs : gmap string pyval) : result t :=
  let auto := default true auto in
  let kwargs := <["max_length"%string := PyInt 22]> kwargs in
  let kwargs :=
    if auto then
      let kwargs := <["editable"%string := PyBool false]> kwargs in
      <["blank"%string := PyBool true]> kwargs
    else kwargs in
  match CharField_init signature args kwargs with
  | Ok base => Ok {| auto := auto; super := base |}
  | Raise e => Raise e
  end.

(** Inherited from the base field. *)
Definition contribute_to_class (self : t) (name : string) : t :=
  {| auto := auto self; super := CharField_contribute_to_class (super self) name |}.

Definition pre_save (self : t) (add : bool) : M world pyval :=
  value ← CharField_pre_save (super self) add;
  if auto self && negb (truthy value) then
    s ← shortuuid_uuid;
    let value := unicode s in
    name ← self_attname (super self);
    _ ← setattr name value;
    mret value
  else mret value.

Section FormField.
(** Modelled from the spec: [formfield] of the base class, which is not
    part of the sources: "the base field's standard form-field
    construction", which yields a form field. *)
Context {FormField : Type}.
Variable CharField_formfield : CharField → gmap string pyval → FormField.

(** [None] is Python's [None], "no form field". *)
Definition formfield (self : t) (kwargs : gmap string pyval) : option FormField :=
  if auto self then None
  else Some (CharField_formfield (super self) kwargs).
End FormField.

End ShortUUIDField.

(** ** [class PrefixShortUUIDField(CharField)] *)

Module PrefixShortUUIDField.

Record t : Type := { auto : bool; prefix_str : string; super : CharField }.

(** [__init__(self, auto=True, prefix_str='uu-', *args, **kwargs)] *)
Definition init (signature : list (string * pyval)) (auto : option bool)
    (prefix_str : option string)
    (args : list pyval) (kwargs : gmap string pyval) : result t :=
  let auto := default true auto in
  let prefix_str := default "uu-"%string prefix_str in
  let kwargs :=
    <["max_length"%string := PyInt (Z.of_nat (String.length prefix_str) + 8)]> kwargs in
  let kwargs :=
    if auto then
      let kwargs := <["editable"%string := PyBool false]> kwargs in
      <["blank"%string := PyBool true]> kwargs
    else kwargs in
  match CharField_init signature args kwargs with
  | Ok base => Ok {| auto := auto; prefix_str := prefix_str; super := base |}
  | Raise e => Raise e
  end.

(** Inherited from the base field. *)
Definition contribute_to_class (self : t) (name : string) : t :=
  {| auto := auto self; prefix_str := prefix_str self;
     super := CharField_contribute_to_class (super self) name |}.

Definition pre_save (self : t) (add : bool) : M world pyval :=
  value ← CharField_pre_save (super self) add;
  if auto self && negb (truthy value) then
    u ← uuid4;
    let value := PyStr (prefix_str self +:+ slice_to 8 (str (shortuuid_encode u))) in
    name ← self_attname (super self);
    _ ← setattr name value;
    mret value
  else mret value.

Section FormField.
Context {FormField : Type}.
Variable CharField_formfield : CharField → gmap string pyval → FormField.

Definition formfield (self : t) (kwargs : gmap string pyval) : option FormField :=
  if auto self then None
  else Some (CharField_formfield (super self) kwargs).
End FormField.

End PrefixShortUUIDField.

(** ** Module initialisation: the optional South registration *)

Section South.
(** The state of South's model inspector. *)
Context {registry : Type}.

(** [south.modelsinspector.add_introspection_rules(rules, patterns)] *)
Definition add_introspection_rules_t : Type :=
  list pyval → list string → M registry unit.

(** [from south.modelsinspector import add_introspection_rules]:
    [south] is the function when South is installed, and the import
    raises [ImportError] when it is not. *)
Definition import_add_introspection_rules
    (south : option add_introspection_rules_t)
  : M registry add_introspection_rules_t :=
  match south with
  | Some f => mret f
  | None => raise ImportError
  end.

(** The [try: ... except ImportError: pass] at the end of the module. *)
Definition module_init (south : option add_introspection_rules_t) : M registry unit :=
  try_except
    (add_introspection_rules ← import_add_introspection_rules south;
     _ ← add_introspection_rules [] ["^shortuuidfield\.fields\.ShortUUIDField"%string];
     add_introspection_rules []
       ["^prefixshortuuidfield\.fields\.PrefixShortUUIDField"%string])
    ImportError
    (mret tt).
End South.

(** ** Objects for the examples *)

Definition example_entropy : entropy :=
  {| source := λ n, 12345678901234567890 * N.of_nat (n + 7) ^ 20; consumed := 0 |}.

(** A record that has no identifier yet, and one that was saved before. *)
Definition fresh_record : world :=
  {| model_instance := {[ "uuid"%string := PyStr EmptyString ]}; urandom := example_entropy |}.

Definition saved_record : world :=
  {| model_instance := {[ "uuid"%string := PyStr "29XR3cSsr7Bw5vYPhUTRpZ" ]};
     urandom := example_entropy |}.

(** The options a field constructed with [auto] holds, attached as [uuid]. *)
Definition example_base (auto : bool) (max_length : Z) : CharField :=
  CharField_contribute_to_class
    {| options := {[ "max_length"%string := PyInt max_length;
                     "editable"%string := PyBool (negb auto);
                     "blank"%string := PyBool auto ]};
       attname := None |}
    "uuid".

Definition example_plain (auto : bool) : ShortUUIDField.t :=
  {| ShortUUIDField.auto := auto; ShortUUIDField.super := example_base auto 22 |}.

Definition example_prefixed (auto : bool) : PrefixShortUUIDField.t :=
  {| PrefixShortUUIDField.auto := auto;
     PrefixShortUUIDField.prefix_str := "uu-";
     PrefixShortUUIDField.super := example_base auto 11 |}.

(** A form field, represented by the keyword arguments with which the
    base field calls the form class: its own [max_length] unless the
    caller overrides it. *)
Definition example_CharField_formfield (self : CharField)
    (kwargs : gmap string pyval) : gmap string pyval :=
  kwargs ∪ {[ "max_length"%string := default PyNone (max_length self) ]}.

(** A record with another attribute besides the identifier. *)
Definition titled_record : world :=
  {| model_instance := {[ "uuid"%string := PyStr EmptyString;
                          "title"%string := PyStr "first post" ]};
     urandom := example_entropy |}.

(** A South for the examples: the inspector's state is the list of the
    pattern lists registered so far. *)
Definition example_add_introspection_rules
  : @add_introspection_rules_t (list (list string)) :=
  λ rules patterns reg, (Ok tt, reg ++ [patterns]).

(** A South whose registration records the call and then raises [e]. *)
Definition failing_add_introspection_rules (e : exn)
  : @add_introspection_rules_t (list (list string)) :=
  λ rules patterns reg, (Raise e, reg ++ [patterns]).

(** * Properties *)

(** ** Strings *)

Section Strings.
Implicit Types (s t : string) (l : list ascii).

Lemma length_string_of_list_ascii l :
  String.length (string_of_list_ascii l) = List.length l.
Proof. induction l as [| c l IH]; simpl; congruence. Qed.

Lemma list_ascii_of_string_app s t :
  list_ascii_of_string (s +:+ t) = list_ascii_of_string s ++ list_ascii_of_string t.
Proof.
  induction s as [| c s IH]; [done |].
  change (String c s +:+ t) with (String c (s +:+ t)). simpl. by rewrite IH.
Qed.

Lemma string_length_app s t :
  String.length (s +:+ t) = (String.length s + String.length t)%nat.
Proof.
  induction s as [| c s IH]; [done |].
  change (String c s +:+ t) with (String c (s +:+ t)). simpl. by rewrite IH.
Qed.

Lemma slice_to_length n s :
  String.length (slice_to n s) = (n `min` String.length s)%nat.
Proof.
  revert s; induction n as [| n IH]; intros [| c s]; simpl; try done.
  by rewrite IH.
Qed.

Lemma slice_to_base57 n s : base57 s → base57 (slice_to n s).
Proof.
  unfold base57. revert s; induction n as [| n IH]; intros [| c s]; simpl;
    try (intros; by constructor).
  intros H. apply Forall_cons in H as [Hc Hs]. constructor; auto.
Qed.

Lemma base57b_spec s : base57b s = true ↔ base57 s.
Proof.
  unfold base57b, base57. rewrite forallb_forall, Forall_forall.
  split; intros H c Hc.
  - apply list_elem_of_In in Hc. specialize (H c Hc).
    apply existsb_exists in H as (c' & Hin & Heq).
    apply Ascii.eqb_eq in Heq as ->. by apply list_elem_of_In.
  - apply existsb_exists. exists c. split; [| apply Ascii.eqb_refl].
    apply list_elem_of_In, H. by apply list_elem_of_In.
Qed.
End Strings.

(** ** The base57 encoder *)

Lemma alphabet_at_elem (digit : N) :
  digit < alpha_len → alphabet_at digit ∈ list_ascii_of_string alphabet.
Proof.
  intros Hd. apply list_elem_of_In, nth_In.
  change alpha_len with 57 in Hd.
  change (List.length (list_ascii_of_string alphabet)) with 57%nat. lia.
Qed.

Lemma int_to_digits_alphabet (number : N) :
  Forall (λ c, c ∈ list_ascii_of_string alphabet) (int_to_digits number).
Proof.
  funelim (int_to_digits number); [constructor |].
  constructor; [| assumption].
  apply alphabet_at_elem, N.mod_lt. done.
Qed.

(** A number below [57^k] has at most [k] digits. *)
Lemma int_to_digits_length (k : nat) (number : N) :
  number < alpha_len ^ N.of_nat k → (List.length (int_to_digits number) ≤ k)%nat.
Proof.
  revert number. induction k as [| k IH]; intros number Hlt.
  - assert (number = 0) as -> by (change (alpha_len ^ N.of_nat 0) with 1 in Hlt; lia).
    done.
  - simp int_to_digits. destruct (N.eq_dec number 0) as [-> | Hn]; simpl; [lia |].
    apply le_n_S, IH. apply N.Div0.div_lt_upper_bound.
    rewrite Nat2N.inj_succ, N.pow_succ_r' in Hlt. done.
Qed.

Lemma int_to_string_length (number : N) (padding : nat) :
  number < alpha_len ^ N.of_nat padding →
  String.length (int_to_string number padding) = padding.
Proof.
  intros Hlt. apply int_to_digits_length in Hlt. unfold int_to_string.
  rewrite length_string_of_list_ascii, length_rev, length_app, length_replicate.
  lia.
Qed.

Lemma int_to_string_base57 (number : N) (padding : nat) :
  base57 (int_to_string number padding).
Proof.
  unfold base57, int_to_string.
  rewrite list_ascii_of_string_of_list_ascii.
  apply Forall_rev, Forall_app. split; [apply int_to_digits_alphabet |].
  apply Forall_replicate, alphabet_at_elem. done.
Qed.

Lemma shortuuid_encode_length (uuid_int : N) :
  uuid_int < 2 ^ 128 → String.length (shortuuid_encode uuid_int) = 22%nat.
Proof.
  intros Hlt. apply int_to_string_length.
  eapply N.lt_trans; [exact Hlt |]. by vm_compute.
Qed.

Lemma shortuuid_encode_base57 (uuid_int : N) : base57 (shortuuid_encode uuid_int).
Proof. apply int_to_string_base57. Qed.

(** ** Version-4 UUIDs stay within 128 bits *)

Lemma N_lt_pow2_bits (x k : N) :
  (∀ i, k <= i → N.testbit x i = false) → x < 2 ^ k.
Proof.
  intros Hbits. rewrite <- (N.mod_small x (2 ^ k)) at 1.
  - apply N.mod_lt, N.pow_nonzero. done.
  - destruct (N.lt_ge_cases x (2 ^ k)) as [? | Hge]; [done |].
    assert (x ≠ 0) as Hx by (pose proof (N.pow_nonzero 2 k); lia).
    assert (k <= N.log2 x) as Hk by (by apply N.log2_le_pow2; lia).
    specialize (Hbits _ Hk). rewrite N.bit_log2 in Hbits; done.
Qed.

Lemma UUID_version4_bound (int : N) : int < 2 ^ 128 → UUID_version4 int < 2 ^ 128.
Proof.
  intros Hlt. apply N_lt_pow2_bits. intros i Hi. unfold UUID_version4.
  assert (N.testbit int i = false) as Hint.
  { destruct (N.eq_dec int 0) as [-> | Hn]; [apply N.bits_0 |].
    apply N.bits_above_log2. apply N.log2_lt_pow2 in Hlt; lia. }
  assert (∀ c, c < 2 ^ 128 → N.testbit c i = false) as Hc.
  { intros c Hclt. destruct (N.eq_dec c 0) as [-> | Hn]; [apply N.bits_0 |].
    apply N.bits_above_log2. apply N.log2_lt_pow2 in Hclt; lia. }
  rewrite N.lor_spec, N.ldiff_spec, N.lor_spec, N.ldiff_spec, Hint.
  rewrite (Hc (N.shiftl 0x8000 48)) by (by vm_compute).
  rewrite (Hc (N.shiftl 4 76)) by (by vm_compute).
  done.
Qed.

(** ** Running the hooks *)

Ltac unfold_M :=
  unfold CharField_pre_save, self_attname, shortuuid_uuid, uuid4, os_urandom16,
    getattr, setattr, raise, unicode, str, mbind, M_bind, mret, M_ret in *.

Lemma truthy_PyStr (s : string) : (0 < String.length s)%nat → truthy (PyStr s) = true.
Proof. destruct s; simpl; [lia | done]. Qed.

Lemma uuid4_run (w : world) :
  ∃ u, u < 2 ^ 128 ∧
    uuid4 w = (Ok u, {| model_instance := model_instance w;
                        urandom := {| source := source (urandom w);
                                      consumed := S (consumed (urandom w)) |} |}).
Proof.
  eexists. split; [| by unfold_M].
  apply UUID_version4_bound, N.mod_lt. done.
Qed.

(** The base resolution reads the attribute and changes nothing. *)
Lemma CharField_pre_save_frame (self : CharField) (add : bool) (w : world) :
  (CharField_pre_save self add w).2 = w.
Proof.
  unfold_M. destruct (attname self) as [name |]; simpl; [| done].
  by destruct (model_instance w !! name).
Qed.

Lemma CharField_pre_save_lookup (self : CharField) (add : bool) (w : world)
    (name : string) (value : pyval) :
  attname self = Some name → model_instance w !! name = Some value →
  CharField_pre_save self add w = (Ok value, w).
Proof. intros Hname Hvalue. unfold_M. rewrite Hname. simpl. by rewrite Hvalue. Qed.

Section PlainHook.
Import ShortUUIDField.
Variables (self : ShortUUIDField.t) (add : bool) (w : world).
Variables (name : string) (value : pyval).
Hypothesis Hname : attname (super self) = Some name.
Hypothesis Hvalue : model_instance w !! name = Some value.

(** Nothing to generate: the stored value is returned and the world is
    left as it was. *)
Lemma plain_pre_save_keeps :
  auto self && negb (truthy value) = false → pre_save self add w = (Ok value, w).
Proof.
  intros Hcond. unfold pre_save.
  unfold mbind at 1, M_bind at 1.
  rewrite (CharField_pre_save_lookup _ _ _ _ _ Hname Hvalue).
  by rewrite Hcond.
Qed.

(** Generation: one UUID is drawn, encoded, stored and returned. *)
Lemma plain_pre_save_generates :
  auto self = true → truthy value = false →
  ∃ u w1, uuid4 w = (Ok u, w1) ∧ u < 2 ^ 128 ∧
    pre_save self add w =
      (Ok (PyStr (shortuuid_encode u)),
       {| model_instance := <[name := PyStr (shortuuid_encode u)]> (model_instance w);
          urandom := urandom w1 |}).
Proof.
  intros Hauto Hempty. destruct (uuid4_run w) as (u & Hu & Hrun).
  eexists _, _. split; [exact Hrun |]. split; [exact Hu |].
  unfold pre_save. unfold mbind at 1, M_bind at 1.
  rewrite (CharField_pre_save_lookup _ _ _ _ _ Hname Hvalue).
  rewrite Hauto, Hempty. simpl.
  unfold shortuuid_uuid. unfold mbind at 1, M_bind at 1.
  unfold mbind at 1, M_bind at 1. rewrite Hrun.
  unfold_M. rewrite Hname. done.
Qed.
End PlainHook.

Section PrefixHook.
Import PrefixShortUUIDField.
Variables (self : PrefixShortUUIDField.t) (add : bool) (w : world).
Variables (name : string) (value : pyval).
Hypothesis Hname : attname (super self) = Some name.
Hypothesis Hvalue : model_instance w !! name = Some value.

Lemma prefix_pre_save_keeps :
  auto self && negb (truthy value) = false → pre_save self add w = (Ok value, w).
Proof.
  intros Hcond. unfold pre_save.
  unfold mbind at 1, M_bind at 1.
  rewrite (CharField_pre_save_lookup _ _ _ _ _ Hname Hvalue).
  by rewrite Hcond.
Qed.

Lemma prefix_pre_save_generates :
  auto self = true → truthy value = false →
  ∃ u w1, uuid4 w = (Ok u, w1) ∧ u < 2 ^ 128 ∧
    let generated := PyStr (prefix_str self +:+ slice_to 8 (shortuuid_encode u)) in
    pre_save self add w =
      (Ok generated,
       {| model_instance := <[name := generated]> (model_instance w);
          urandom := urandom w1 |}).
Proof.
  intros Hauto Hempty. destruct (uuid4_run w) as (u & Hu & Hrun).
  eexists _, _. split; [exact Hrun |]. split; [exact Hu |].
  unfold pre_save. unfold mbind at 1, M_bind at 1.
  rewrite (CharField_pre_save_lookup _ _ _ _ _ Hname Hvalue).
  rewrite Hauto, Hempty. simpl.
  unfold mbind at 1, M_bind at 1. rewrite Hrun.
  unfold_M. rewrite Hname. done.
Qed.
End PrefixHook.

(** ** Binding the constructor call *)

Section BindCall.
Variables (signature : list (string * pyval)) (args : list pyval).
Implicit Types (kwargs opts : gmap string pyval) (k : string) (v : pyval).

(** A keyword that the call accepts reaches the parameter it names. *)
Lemma bind_call_keyword kwargs opts k v :
  bind_call signature args kwargs = Ok opts →
  kwargs !! k = Some v → opts !! k = Some v.
Proof.
  unfold bind_call. case_decide as Hlen; [done |].
  destruct (existsb _ _) eqn:Hdup; [done |].
  destruct (negb _); [done |]. intros [= <-] Hk.
  apply lookup_union_Some_l. rewrite lookup_union_r; [done |].
  apply not_elem_of_list_to_map_1.
  rewrite <- zip_with_take_l, fst_zip by (rewrite length_take; apply Nat.le_min_l).
  intros Hin. apply list_elem_of_In in Hin.
  assert (existsb (λ p, bool_decide (is_Some (kwargs !! p)))
                  (take (List.length args) signature.*1) = true) as Habs; [| congruence].
  apply existsb_exists. exists k. split; [done |].
  apply bool_decide_eq_true_2. by eexists.
Qed.

Lemma CharField_init_keyword kwargs base k v :
  CharField_init signature args kwargs = Ok base →
  kwargs !! k = Some v → options base !! k = Some v.
Proof.
  unfold CharField_init. destruct (bind_call _ _ _) as [opts |] eqn:Hbind; [| done].
  intros [= <-]. simpl. by eapply bind_call_keyword.
Qed.
End BindCall.

(** A keyword-only call that names parameters of the signature is accepted. *)
Lemma bind_call_keywords_only signature (kwargs : gmap string pyval) :
  dom kwargs ⊆ list_to_set signature.*1 →
  bind_call signature [] kwargs = Ok (kwargs ∪ list_to_map signature).
Proof.
  intros Hdom. unfold bind_call. simpl.
  rewrite bool_decide_eq_true_2 by done. simpl.
  assert (zip signature.*1 ([] : list pyval) = []) as -> by (by destruct signature).
  simpl. by rewrite (left_id_L ∅ (∪)).
Qed.

(** ** The constructors *)

Section Constructors.
Variables (signature : list (string * pyval)) (args : list pyval).
Implicit Types (kwargs : gmap string pyval) (v : pyval).

Lemma plain_init_config auto kwargs self :
  ShortUUIDField.init signature auto args kwargs = Ok self →
  ShortUUIDField.auto self = default true auto ∧
  max_length (ShortUUIDField.super self) = Some (PyInt 22) ∧
  (default true auto = true →
   editable (ShortUUIDField.super self) = Some (PyBool false) ∧
   blank (ShortUUIDField.super self) = Some (PyBool true)).
Proof.
  unfold ShortUUIDField.init.
  destruct (CharField_init _ _ _) as [base |] eqn:Hbase; [| done].
  intros [= <-]. simpl. split; [done |].
  unfold max_length, editable, blank.
  destruct (default true auto); simpl in *.
  - split; [| intros _; split];
      (eapply CharField_init_keyword; [exact Hbase |]); by simplify_map_eq.
  - split; [| done].
    eapply CharField_init_keyword; [exact Hbase |]. by simplify_map_eq.
Qed.

Lemma prefix_init_config auto prefix kwargs self :
  PrefixShortUUIDField.init signature auto prefix args kwargs = Ok self →
  PrefixShortUUIDField.auto self = default true auto ∧
  PrefixShortUUIDField.prefix_str self = default "uu-"%string prefix ∧
  max_length (PrefixShortUUIDField.super self)
    = Some (PyInt (Z.of_nat (String.length (default "uu-"%string prefix)) + 8)) ∧
  (default true auto = true →
   editable (PrefixShortUUIDField.super self) = Some (PyBool false) ∧
   blank (PrefixShortUUIDField.super self) = Some (PyBool true)).
Proof.
  unfold PrefixShortUUIDField.init.
  destruct (CharField_init _ _ _) as [base |] eqn:Hbase; [| done].
  intros [= <-]. simpl. split; [done |]. split; [done |].
  unfold max_length, editable, blank.
  destruct (default true auto); simpl in *.
  - split; [| intros _; split];
      (eapply CharField_init_keyword; [exact Hbase |]); by simplify_map_eq.
  - split; [| done].
    eapply CharField_init_keyword; [exact Hbase |]. by simplify_map_eq.
Qed.
End Constructors.

Lemma dom_insert_subseteq (k : string) (v : pyval) (kwargs : gmap string pyval)
    (names : gset string) :
  k ∈ names → dom kwargs ⊆ names → dom (<[k := v]> kwargs) ⊆ names.
Proof.
  intros Hk Hdom. rewrite dom_insert_L.
  apply union_subseteq. split; [| done]. by apply singleton_subseteq_l.
Qed.

Ltac Field_parameter := apply (bool_decide_unpack _); by vm_compute.

(** With Django's parameters, a keyword-only construction that names
    parameters of [Field.__init__] succeeds. *)
Lemma plain_init_succeeds auto (kwargs : gmap string pyval) :
  dom kwargs ⊆ list_to_set Field_signature.*1 →
  ∃ self, ShortUUIDField.init Field_signature auto [] kwargs = Ok self.
Proof.
  intros Hdom. unfold ShortUUIDField.init, CharField_init.
  rewrite bind_call_keywords_only; [by eexists |].
  destruct (default true auto);
    repeat (apply dom_insert_subseteq; [Field_parameter |]); done.
Qed.

Lemma prefix_init_succeeds auto prefix (kwargs : gmap string pyval) :
  dom kwargs ⊆ list_to_set Field_signature.*1 →
  ∃ self, PrefixShortUUIDField.init Field_signature auto prefix [] kwargs = Ok self.
Proof.
  intros Hdom. unfold PrefixShortUUIDField.init, CharField_init.
  rewrite bind_call_keywords_only; [by eexists |].
  destruct (default true auto);
    repeat (apply dom_insert_subseteq; [Field_parameter |]); done.
Qed.

Lemma string_prefix_app (s t : string) : String.prefix s (s +:+ t) = true.
Proof.
  induction s as [| c s IH].
  - change (EmptyString +:+ t) with t. by destruct t.
  - change (String c s +:+ t) with (String c (s +:+ t)). simpl.
    destruct (ascii_dec c c); done.
Qed.

(** * The claims *)

(** C1. For a plain field with [auto] set, attached under [name], and a
    record whose value under [name] is empty or [None] (anything Python
    counts as false), [pre_save] draws a random 128-bit UUID [u], encodes
    it in base57, stores the text under [name] on the record and returns
    that same text: afterwards the attribute equals the returned value. *)
Theorem C1_pre_save_generates_and_assigns
    (self : ShortUUIDField.t) (add : bool) (w : world) (name : string) (value : pyval) :
  ShortUUIDField.auto self = true →
  attname (ShortUUIDField.super self) = Some name →
  model_instance w !! name = Some value →
  truthy value = false →
  ∃ u w1 generated w',
    uuid4 w = (Ok u, w1) ∧ u < 2 ^ 128 ∧
    generated = PyStr (shortuuid_encode u) ∧
    ShortUUIDField.pre_save self add w = (Ok generated, w') ∧
    model_instance w' = <[name := generated]> (model_instance w) ∧
    model_instance w' !! name = Some generated.
Proof.
  intros Hauto Hname Hvalue Hempty.
  destruct (plain_pre_save_generates self add w name value Hname Hvalue Hauto Hempty)
    as (u & w1 & Hrun & Hu & Hsave).
  exists u, w1. eexists _, _. repeat split; try done.
  simpl. by rewrite lookup_insert_eq.
Qed.

Lemma C1_witness :
  ShortUUIDField.auto (example_plain true) = true ∧
  model_instance fresh_record !! "uuid"%string = Some (PyStr EmptyString) ∧
  ∃ u w1 generated w',
    uuid4 fresh_record = (Ok u, w1) ∧ u < 2 ^ 128 ∧
    generated = PyStr (shortuuid_encode u) ∧
    ShortUUIDField.pre_save (example_plain true) true fresh_record = (Ok generated, w') ∧
    model_instance w' = <["uuid"%string := generated]> (model_instance fresh_record) ∧
    model_instance w' !! "uuid"%string = Some generated.
Proof.
  split; [reflexivity |]. split; [reflexivity |].
  apply (C1_pre_save_generates_and_assigns (example_plain true) true fresh_record
           "uuid" (PyStr EmptyString)); reflexivity.
Defined.

(** The concrete scenario of the specification: default construction,
    a record without a value, one call of the hook. *)
Example pre_save_fresh_record :
  let '(r, w') := ShortUUIDField.pre_save (example_plain true) true fresh_record in
  r = Ok (PyStr "29XR3cSsr7Bw5vYPhUTRpZ") ∧
  model_instance w' !! "uuid"%string = Some (PyStr "29XR3cSsr7Bw5vYPhUTRpZ").
Proof. by vm_compute. Qed.

(** ** Saving twice *)

Lemma CharField_pre_save_raises (self : CharField) (add : bool) (w : world) :
  attname self = None ∨
  (∃ name, attname self = Some name ∧ model_instance w !! name = None) →
  CharField_pre_save self add w = (Raise AttributeError, w).
Proof.
  unfold_M. intros [-> | (name & -> & Hnone)]; simpl; [done |]. by rewrite Hnone.
Qed.

Lemma andb_negb_truthy_PyStr (b : bool) (s : string) :
  (0 < String.length s)%nat → b && negb (truthy (PyStr s)) = false.
Proof. intros Hs. rewrite truthy_PyStr by done. by destruct b. Qed.

Lemma prefixed_value_length (prefix : string) (u : N) :
  u < 2 ^ 128 →
  String.length (prefix +:+ slice_to 8 (shortuuid_encode u))
    = (String.length prefix + 8)%nat.
Proof.
  intros Hu.
  by rewrite string_length_app, slice_to_length, shortuuid_encode_length.
Qed.

Lemma prefixed_value_nonempty (prefix : string) (u : N) :
  u < 2 ^ 128 →
  (0 < String.length (prefix +:+ slice_to 8 (shortuuid_encode u)))%nat.
Proof. intros Hu. rewrite prefixed_value_length by done. lia. Qed.

Lemma plain_pre_save_idempotent (self : ShortUUIDField.t) (add add' : bool)
    (w w' : world) (v : pyval) :
  ShortUUIDField.pre_save self add w = (Ok v, w') →
  ShortUUIDField.pre_save self add' w' = (Ok v, w').
Proof.
  destruct (attname (ShortUUIDField.super self)) as [name |] eqn:Hname;
    [destruct (model_instance w !! name) as [value |] eqn:Hvalue |].
  - destruct (ShortUUIDField.auto self && negb (truthy value)) eqn:Hcond.
    + apply andb_true_iff in Hcond as [Hauto Hempty].
      apply negb_true_iff in Hempty.
      destruct (plain_pre_save_generates self add w name value Hname Hvalue Hauto Hempty)
        as (u & w1 & _ & Hu & ->).
      intros [= <- <-].
      apply plain_pre_save_keeps with (name := name); [done | | ].
      * simpl. by rewrite lookup_insert_eq.
      * apply andb_negb_truthy_PyStr. rewrite shortuuid_encode_length by done. lia.
    + rewrite (plain_pre_save_keeps self add w name value Hname Hvalue Hcond).
      intros [= <- <-]. by apply plain_pre_save_keeps with (name := name).
  - unfold ShortUUIDField.pre_save. unfold mbind at 1, M_bind at 1.
    rewrite CharField_pre_save_raises by eauto. done.
  - unfold ShortUUIDField.pre_save. unfold mbind at 1, M_bind at 1.
    rewrite CharField_pre_save_raises by eauto. done.
Qed.

Lemma prefix_pre_save_idempotent (self : PrefixShortUUIDField.t) (add add' : bool)
    (w w' : world) (v : pyval) :
  PrefixShortUUIDField.pre_save self add w = (Ok v, w') →
  PrefixShortUUIDField.pre_save self add' w' = (Ok v, w').
Proof.
  destruct (attname (PrefixShortUUIDField.super self)) as [name |] eqn:Hname;
    [destruct (model_instance w !! name) as [value |] eqn:Hvalue |].
  - destruct (PrefixShortUUIDField.auto self && negb (truthy value)) eqn:Hcond.
    + apply andb_true_iff in Hcond as [Hauto Hempty].
      apply negb_true_iff in Hempty.
      destruct (prefix_pre_save_generates self add w name value Hname Hvalue Hauto Hempty)
        as (u & w1 & _ & Hu & ->).
      intros [= <- <-].
      apply prefix_pre_save_keeps with (name := name); [done | | ].
      * simpl. by rewrite lookup_insert_eq.
      * apply andb_negb_truthy_PyStr. by apply prefixed_value_nonempty.
    + rewrite (prefix_pre_save_keeps self add w name value Hname Hvalue Hcond).
      intros [= <- <-]. by apply prefix_pre_save_keeps with (name := name).
  - unfold PrefixShortUUIDField.pre_save. unfold mbind at 1, M_bind at 1.
    rewrite CharField_pre_save_raises by eauto. done.
  - unfold PrefixShortUUIDField.pre_save. unfold mbind at 1, M_bind at 1.
    rewrite CharField_pre_save_raises by eauto. done.
Qed.

(** C2. When the record already holds a non-empty value under the
    field's attribute, [pre_save] of either variant, whatever [auto] and
    [add] are, returns that value and leaves the record and the random
    source exactly as they were. Moreover a save is idempotent: whatever
    value a save returned (kept or freshly generated), the next save of
    the resulting record returns the same value and changes nothing. *)
Theorem C2_pre_save_keeps_existing_value (add add' : bool) (w : world) :
  (∀ (self : ShortUUIDField.t) name value,
     attname (ShortUUIDField.super self) = Some name →
     model_instance w !! name = Some value → truthy value = true →
     ShortUUIDField.pre_save self add w = (Ok value, w)) ∧
  (∀ (self : PrefixShortUUIDField.t) name value,
     attname (PrefixShortUUIDField.super self) = Some name →
     model_instance w !! name = Some value → truthy value = true →
     PrefixShortUUIDField.pre_save self add w = (Ok value, w)) ∧
  (∀ (self : ShortUUIDField.t) v w',
     ShortUUIDField.pre_save self add w = (Ok v, w') →
     ShortUUIDField.pre_save self add' w' = (Ok v, w')) ∧
  (∀ (self : PrefixShortUUIDField.t) v w',
     PrefixShortUUIDField.pre_save self add w = (Ok v, w') →
     PrefixShortUUIDField.pre_save self add' w' = (Ok v, w')).
Proof.
  repeat split.
  - intros self name value Hname Hvalue Htrue.
    apply plain_pre_save_keeps with (name := name); [done | done |].
    rewrite Htrue. apply andb_false_r.
  - intros self name value Hname Hvalue Htrue.
    apply prefix_pre_save_keeps with (name := name); [done | done |].
    rewrite Htrue. apply andb_false_r.
  - intros self v w'. apply plain_pre_save_idempotent.
  - intros self v w'. apply prefix_pre_save_idempotent.
Qed.

Lemma C2_witness :
  ShortUUIDField.pre_save (example_plain true) true saved_record
    = (Ok (PyStr "29XR3cSsr7Bw5vYPhUTRpZ"), saved_record) ∧
  PrefixShortUUIDField.pre_save (example_prefixed true) true saved_record
    = (Ok (PyStr "29XR3cSsr7Bw5vYPhUTRpZ"), saved_record) ∧
  (let '(r, w') := ShortUUIDField.pre_save (example_plain true) true fresh_record in
   ShortUUIDField.pre_save (example_plain true) false w' = (r, w')) ∧
  (let '(r, w') := PrefixShortUUIDField.pre_save (example_prefixed true) true fresh_record in
   PrefixShortUUIDField.pre_save (example_prefixed true) false w' = (r, w')).
Proof.
  destruct (C2_pre_save_keeps_existing_value true false saved_record) as (H1 & H2 & _).
  destruct (C2_pre_save_keeps_existing_value true false fresh_record) as (_ & _ & H3 & H4).
  split; [apply (H1 _ "uuid"%string); reflexivity |].
  split; [apply (H2 _ "uuid"%string); reflexivity |].
  split.
  - destruct (ShortUUIDField.pre_save (example_plain true) true fresh_record)
      as [r w'] eqn:Hsave.
    assert (∃ v, r = Ok v) as [v ->]
      by (vm_compute in Hsave; injection Hsave as <- _; by eexists).
    by apply H3.
  - destruct (PrefixShortUUIDField.pre_save (example_prefixed true) true fresh_record)
      as [r w'] eqn:Hsave.
    assert (∃ v, r = Ok v) as [v ->]
      by (vm_compute in Hsave; injection Hsave as <- _; by eexists).
    by apply H4.
Defined.

(** C3. A value generated by the prefixed field ([auto] set, empty
    stored value) is the configured prefix followed by a suffix of
    exactly 8 characters of the base57 alphabet, the first 8 of the
    encoding of the drawn UUID; its length is [len(prefix) + 8], and it
    is what the record holds afterwards. *)
Theorem C3_prefixed_value_shape
    (self : PrefixShortUUIDField.t) (add : bool) (w : world)
    (name : string) (value : pyval) :
  PrefixShortUUIDField.auto self = true →
  attname (PrefixShortUUIDField.super self) = Some name →
  model_instance w !! name = Some value →
  truthy value = false →
  ∃ u w1 suffix w',
    uuid4 w = (Ok u, w1) ∧
    suffix = slice_to 8 (shortuuid_encode u) ∧
    PrefixShortUUIDField.pre_save self add w
      = (Ok (PyStr (PrefixShortUUIDField.prefix_str self +:+ suffix)), w') ∧
    model_instance w' !! name
      = Some (PyStr (PrefixShortUUIDField.prefix_str self +:+ suffix)) ∧
    String.prefix (PrefixShortUUIDField.prefix_str self)
                  (PrefixShortUUIDField.prefix_str self +:+ suffix) = true ∧
    String.length suffix = 8%nat ∧
    base57 suffix ∧
    String.length (PrefixShortUUIDField.prefix_str self +:+ suffix)
      = (String.length (PrefixShortUUIDField.prefix_str self) + 8)%nat.
Proof.
  intros Hauto Hname Hvalue Hempty.
  destruct (prefix_pre_save_generates self add w name value Hname Hvalue Hauto Hempty)
    as (u & w1 & Hrun & Hu & Hsave).
  exists u, w1, (slice_to 8 (shortuuid_encode u)). eexists.
  split; [exact Hrun |]. split; [reflexivity |]. split; [exact Hsave |].
  split; [cbn [model_instance]; by rewrite lookup_insert_eq |].
  split; [apply string_prefix_app |].
  split; [by rewrite slice_to_length, shortuuid_encode_length |].
  split; [apply slice_to_base57, shortuuid_encode_base57 |].
  by apply prefixed_value_length.
Qed.

Lemma C3_witness :
  PrefixShortUUIDField.auto (example_prefixed true) = true ∧
  model_instance fresh_record !! "uuid"%string = Some (PyStr EmptyString) ∧
  ∃ u w1 suffix w',
    uuid4 fresh_record = (Ok u, w1) ∧
    suffix = slice_to 8 (shortuuid_encode u) ∧
    PrefixShortUUIDField.pre_save (example_prefixed true) false fresh_record
      = (Ok (PyStr ("uu-" +:+ suffix)), w') ∧
    model_instance w' !! "uuid"%string = Some (PyStr ("uu-" +:+ suffix)) ∧
    String.prefix "uu-" ("uu-" +:+ suffix) = true ∧
    String.length suffix = 8%nat ∧
    base57 suffix ∧
    String.length ("uu-" +:+ suffix) = (String.length "uu-" + 8)%nat.
Proof.
  split; [reflexivity |]. split; [reflexivity |].
  apply (C3_prefixed_value_shape (example_prefixed true) false fresh_record
           "uuid" (PyStr EmptyString)); reflexivity.
Defined.

(** The concrete scenario of the specification: prefix ["uu-"], a record
    without a value; the result has length 11. *)
Example prefixed_pre_save_fresh_record :
  let '(r, w') := PrefixShortUUIDField.pre_save (example_prefixed true) true fresh_record in
  r = Ok (PyStr "uu-29XR3cSs") ∧
  model_instance w' !! "uuid"%string = Some (PyStr "uu-29XR3cSs") ∧
  String.length "uu-29XR3cSs" = 11%nat.
Proof. by vm_compute. Qed.

(** C4. A value generated by the plain field ([auto] set, empty stored
    value) is a non-empty text of exactly 22 characters, each of the
    57-character alphabet; it is returned and stored on the record. *)
Theorem C4_plain_value_shape
    (self : ShortUUIDField.t) (add : bool) (w : world) (name : string) (value : pyval) :
  ShortUUIDField.auto self = true →
  attname (ShortUUIDField.super self) = Some name →
  model_instance w !! name = Some value →
  truthy value = false →
  ∃ s w',
    ShortUUIDField.pre_save self add w = (Ok (PyStr s), w') ∧
    model_instance w' !! name = Some (PyStr s) ∧
    String.length s = 22%nat ∧ s ≠ EmptyString ∧ base57 s.
Proof.
  intros Hauto Hname Hvalue Hempty.
  destruct (plain_pre_save_generates self add w name value Hname Hvalue Hauto Hempty)
    as (u & w1 & Hrun & Hu & Hsave).
  exists (shortuuid_encode u). eexists. split; [exact Hsave |].
  split; [cbn [model_instance]; by rewrite lookup_insert_eq |].
  pose proof (shortuuid_encode_length u Hu) as Hlen.
  split; [exact Hlen |]. split; [| apply shortuuid_encode_base57].
  intros Heq. by rewrite Heq in Hlen.
Qed.

Lemma C4_witness :
  ShortUUIDField.auto (example_plain true) = true ∧
  model_instance fresh_record !! "uuid"%string = Some (PyStr EmptyString) ∧
  ∃ s w',
    ShortUUIDField.pre_save (example_plain true) true fresh_record = (Ok (PyStr s), w') ∧
    model_instance w' !! "uuid"%string = Some (PyStr s) ∧
    String.length s = 22%nat ∧ s ≠ EmptyString ∧ base57 s.
Proof.
  split; [reflexivity |]. split; [reflexivity |].
  apply (C4_plain_value_shape (example_plain true) true fresh_record
           "uuid" (PyStr EmptyString)); reflexivity.
Defined.

(** C6. With [auto] off, [pre_save] of either variant is the base field's
    resolution and nothing more: it returns what the base returns (an
    empty value included, an exception included), and the record and the
    random source are left exactly as they were. *)
Theorem C6_auto_off_never_generates (add : bool) (w : world) :
  (∀ self : ShortUUIDField.t,
     ShortUUIDField.auto self = false →
     ShortUUIDField.pre_save self add w
       = CharField_pre_save (ShortUUIDField.super self) add w ∧
     (ShortUUIDField.pre_save self add w).2 = w) ∧
  (∀ self : PrefixShortUUIDField.t,
     PrefixShortUUIDField.auto self = false →
     PrefixShortUUIDField.pre_save self add w
       = CharField_pre_save (PrefixShortUUIDField.super self) add w ∧
     (PrefixShortUUIDField.pre_save self add w).2 = w).
Proof.
  split; intros self Hauto.
  - assert (ShortUUIDField.pre_save self add w
            = CharField_pre_save (ShortUUIDField.super self) add w) as Heq.
    { unfold ShortUUIDField.pre_save. unfold mbind at 1, M_bind at 1.
      rewrite Hauto. simpl.
      by destruct (CharField_pre_save _ add w) as [[v | e] w2]. }
    split; [exact Heq |]. rewrite Heq. apply CharField_pre_save_frame.
  - assert (PrefixShortUUIDField.pre_save self add w
            = CharField_pre_save (PrefixShortUUIDField.super self) add w) as Heq.
    { unfold PrefixShortUUIDField.pre_save. unfold mbind at 1, M_bind at 1.
      rewrite Hauto. simpl.
      by destruct (CharField_pre_save _ add w) as [[v | e] w2]. }
    split; [exact Heq |]. rewrite Heq. apply CharField_pre_save_frame.
Qed.

Lemma C6_witness :
  ShortUUIDField.pre_save (example_plain false) true fresh_record
    = (Ok (PyStr EmptyString), fresh_record) ∧
  PrefixShortUUIDField.pre_save (example_prefixed false) true fresh_record
    = (Ok (PyStr EmptyString), fresh_record).
Proof.
  destruct (C6_auto_off_never_generates true fresh_record) as [H1 H2].
  split.
  - destruct (H1 (example_plain false)) as [-> _]; reflexivity.
  - destruct (H2 (example_prefixed false)) as [-> _]; reflexivity.
Defined.

(** C7. For either variant, [formfield] returns [None] ("no form
    field") whenever [auto] is set, whatever the keyword arguments; with
    [auto] off it returns the form field that the base field's
    construction builds from the same keyword arguments. *)
Theorem C7_formfield {FormField : Type}
    (CharField_formfield : CharField → gmap string pyval → FormField)
    (kwargs : gmap string pyval) :
  (∀ self : ShortUUIDField.t,
     (ShortUUIDField.auto self = true →
      ShortUUIDField.formfield CharField_formfield self kwargs = None) ∧
     (ShortUUIDField.auto self = false →
      ShortUUIDField.formfield CharField_formfield self kwargs
        = Some (CharField_formfield (ShortUUIDField.super self) kwargs))) ∧
  (∀ self : PrefixShortUUIDField.t,
     (PrefixShortUUIDField.auto self = true →
      PrefixShortUUIDField.formfield CharField_formfield self kwargs = None) ∧
     (PrefixShortUUIDField.auto self = false →
      PrefixShortUUIDField.formfield CharField_formfield self kwargs
        = Some (CharField_formfield (PrefixShortUUIDField.super self) kwargs))).
Proof.
  split; intros self; split; intros Hauto.
  - unfold ShortUUIDField.formfield. by rewrite Hauto.
  - unfold ShortUUIDField.formfield. by rewrite Hauto.
  - unfold PrefixShortUUIDField.formfield. by rewrite Hauto.
  - unfold PrefixShortUUIDField.formfield. by rewrite Hauto.
Qed.

Lemma C7_witness :
  ShortUUIDField.formfield example_CharField_formfield (example_plain true) ∅ = None ∧
  ShortUUIDField.formfield example_CharField_formfield (example_plain false) ∅
    = Some {[ "max_length"%string := PyInt 22 ]} ∧
  PrefixShortUUIDField.formfield example_CharField_formfield (example_prefixed true) ∅
    = None ∧
  PrefixShortUUIDField.formfield example_CharField_formfield (example_prefixed false) ∅
    = Some {[ "max_length"%string := PyInt 11 ]}.
Proof.
  destruct (C7_formfield example_CharField_formfield ∅) as [H1 H2].
  split; [apply (H1 (example_plain true)); reflexivity |].
  split; [rewrite (proj2 (H1 (example_plain false))) by reflexivity; by vm_compute |].
  split; [apply (H2 (example_prefixed true)); reflexivity |].
  rewrite (proj2 (H2 (example_prefixed false))) by reflexivity. by vm_compute.
Defined.

(** C8. The insert-or-update flag is not used: from the same record and
    the same random source, [pre_save] of either variant gives the same
    result and the same final state for [add = True] and [add = False]. *)
Theorem C8_add_flag_unused (w : world) :
  (∀ self : ShortUUIDField.t,
     ShortUUIDField.pre_save self true w = ShortUUIDField.pre_save self false w) ∧
  (∀ self : PrefixShortUUIDField.t,
     PrefixShortUUIDField.pre_save self true w
       = PrefixShortUUIDField.pre_save self false w).
Proof. split; intros self; reflexivity. Qed.

(** C9. When South is not installed the import raises [ImportError],
    the handler swallows it, and module initialisation completes
    normally with nothing registered: the inspector's state is the one
    it started from. *)
Theorem C9_missing_South_is_skipped {registry : Type} (reg : registry) :
  module_init None reg = (Ok tt, reg).
Proof. reflexivity. Qed.

(** With South installed both registrations are made, in order; only
    [ImportError] is caught, so any other exception of South's leaves
    the module. *)
Lemma module_init_registers {registry : Type}
    (add_introspection_rules : @add_introspection_rules_t registry)
    (reg reg1 reg2 : registry) :
  add_introspection_rules [] ["^shortuuidfield\.fields\.ShortUUIDField"%string] reg
    = (Ok tt, reg1) →
  add_introspection_rules [] ["^prefixshortuuidfield\.fields\.PrefixShortUUIDField"%string] reg1
    = (Ok tt, reg2) →
  module_init (Some add_introspection_rules) reg = (Ok tt, reg2).
Proof.
  intros H1 H2. unfold module_init, try_except, import_add_introspection_rules.
  unfold mbind, M_bind, mret, M_ret. by rewrite H1, H2.
Qed.

Lemma module_init_propagates {registry : Type}
    (add_introspection_rules : @add_introspection_rules_t registry)
    (reg reg1 : registry) (e : exn) :
  e ≠ ImportError →
  add_introspection_rules [] ["^shortuuidfield\.fields\.ShortUUIDField"%string] reg
    = (Raise e, reg1) →
  module_init (Some add_introspection_rules) reg = (Raise e, reg1).
Proof.
  intros He H1. unfold module_init, try_except, import_add_introspection_rules.
  unfold mbind, M_bind, mret, M_ret. rewrite H1. by rewrite decide_False.
Qed.

(** ** The constructor overrides the caller's keywords *)

Ltac same_keywords :=
  apply map_eq; intros k; rewrite !lookup_insert;
  repeat case_decide; simplify_eq; done.

Lemma plain_init_ignores (signature : list (string * pyval)) (auto : option bool)
    (args : list pyval) (kwargs : gmap string pyval) (k : string) (v : pyval) :
  k = "max_length"%string ∨
  (default true auto = true ∧ (k = "editable"%string ∨ k = "blank"%string)) →
  ShortUUIDField.init signature auto args (<[k := v]> kwargs)
    = ShortUUIDField.init signature auto args kwargs.
Proof.
  unfold ShortUUIDField.init.
  intros [-> | [-> [-> | ->]]]; [destruct (default true auto) |..];
    cbv zeta; cbn match; (match goal with
    | |- match CharField_init _ _ ?kw1 with _ => _ end
         = match CharField_init _ _ ?kw2 with _ => _ end =>
        assert (kw1 = kw2) as -> by same_keywords
    end); done.
Qed.

Lemma prefix_init_ignores (signature : list (string * pyval)) (auto : option bool)
    (prefix : option string)
    (args : list pyval) (kwargs : gmap string pyval) (k : string) (v : pyval) :
  k = "max_length"%string ∨
  (default true auto = true ∧ (k = "editable"%string ∨ k = "blank"%string)) →
  PrefixShortUUIDField.init signature auto prefix args (<[k := v]> kwargs)
    = PrefixShortUUIDField.init signature auto prefix args kwargs.
Proof.
  unfold PrefixShortUUIDField.init.
  intros [-> | [-> [-> | ->]]]; [destruct (default true auto) |..];
    cbv zeta; cbn match; (match goal with
    | |- match CharField_init _ _ ?kw1 with _ => _ end
         = match CharField_init _ _ ?kw2 with _ => _ end =>
        assert (kw1 = kw2) as -> by same_keywords
    end); done.
Qed.

(** C5. Whatever arguments they are given, the constructors fix the
    configuration: a plain field that is constructed has [max_length]
    22; a prefixed field takes its prefix (["uu-"] when omitted) and has
    [max_length = len(prefix) + 8]; [auto] is [True] when omitted; and
    when [auto] is set the field is non-editable and may be blank. With
    Django's parameters, every keyword-only construction that names
    parameters of [Field.__init__] does construct a field. *)
Theorem C5_constructors_configure
    (signature : list (string * pyval)) (auto : option bool) (prefix : option string)
    (args : list pyval) (kwargs : gmap string pyval) :
  (∀ self, ShortUUIDField.init signature auto args kwargs = Ok self →
     ShortUUIDField.auto self = default true auto ∧
     max_length (ShortUUIDField.super self) = Some (PyInt 22) ∧
     (default true auto = true →
      editable (ShortUUIDField.super self) = Some (PyBool false) ∧
      blank (ShortUUIDField.super self) = Some (PyBool true))) ∧
  (∀ self, PrefixShortUUIDField.init signature auto prefix args kwargs = Ok self →
     PrefixShortUUIDField.auto self = default true auto ∧
     PrefixShortUUIDField.prefix_str self = default "uu-"%string prefix ∧
     max_length (PrefixShortUUIDField.super self)
       = Some (PyInt (Z.of_nat (String.length (default "uu-"%string prefix)) + 8)) ∧
     (default true auto = true →
      editable (PrefixShortUUIDField.super self) = Some (PyBool false) ∧
      blank (PrefixShortUUIDField.super self) = Some (PyBool true))) ∧
  (dom kwargs ⊆ list_to_set Field_signature.*1 →
     (∃ self, ShortUUIDField.init Field_signature auto [] kwargs = Ok self) ∧
     (∃ self, PrefixShortUUIDField.init Field_signature auto prefix [] kwargs = Ok self)).
Proof.
  split; [| split].
  - intros self. apply plain_init_config.
  - intros self. apply prefix_init_config.
  - intros Hdom. split; [by apply plain_init_succeeds | by apply prefix_init_succeeds].
Qed.

Lemma C5_witness :
  ∃ plain prefixed,
    ShortUUIDField.init Field_signature None [] ∅ = Ok plain ∧
    PrefixShortUUIDField.init Field_signature None None [] ∅ = Ok prefixed ∧
    ShortUUIDField.auto plain = true ∧
    max_length (ShortUUIDField.super plain) = Some (PyInt 22) ∧
    editable (ShortUUIDField.super plain) = Some (PyBool false) ∧
    blank (ShortUUIDField.super plain) = Some (PyBool true) ∧
    PrefixShortUUIDField.prefix_str prefixed = "uu-"%string ∧
    max_length (PrefixShortUUIDField.super prefixed) = Some (PyInt 11) ∧
    editable (PrefixShortUUIDField.super prefixed) = Some (PyBool false) ∧
    blank (PrefixShortUUIDField.super prefixed) = Some (PyBool true).
Proof.
  destruct (C5_constructors_configure Field_signature None None [] ∅)
    as (Hplain & Hprefixed & Hsucceeds).
  destruct Hsucceeds as [[plain Hp] [prefixed Hq]].
  { rewrite dom_empty_L. apply empty_subseteq. }
  exists plain, prefixed.
  destruct (Hplain plain Hp) as (Ha & Hm & He).
  destruct (Hprefixed prefixed Hq) as (_ & Hs & Hn & Hf).
  destruct (He eq_refl) as [He1 He2]. destruct (Hf eq_refl) as [Hf1 Hf2].
  repeat split; assumption.
Defined.

(** Positional arguments reach Django's parameters in order, so a
    fourth one collides with the [max_length] keyword: the call raises. *)
Example init_positional_max_length :
  ShortUUIDField.init Field_signature (Some true)
    [PyStr "verbose"; PyStr "name"; PyBool false; PyInt 30] ∅ = Raise TypeError.
Proof. by vm_compute. Qed.

(** With [auto] off the caller's [editable] and [blank] are kept. *)
Example init_auto_off_keeps_blank :
  ∃ self, ShortUUIDField.init Field_signature (Some false) []
            {[ "blank"%string := PyBool true; "max_length"%string := PyInt 5 ]} = Ok self ∧
          blank (ShortUUIDField.super self) = Some (PyBool true) ∧
          editable (ShortUUIDField.super self) = Some (PyBool true) ∧
          max_length (ShortUUIDField.super self) = Some (PyInt 22).
Proof. eexists. split; [by vm_compute |]. by vm_compute. Qed.

(** C10. A caller cannot configure [max_length] through the constructor,
    nor, when [auto] is set, [editable] and [blank]: passing any value
    [v] for such a keyword gives the same result as the call without it,
    and a field constructed from a call that passes it has the forced
    value (22, or [len(prefix) + 8]; not editable; blank allowed). *)
Theorem C10_constructor_overrides_keywords
    (signature : list (string * pyval)) (auto : option bool) (prefix : option string)
    (args : list pyval) (kwargs : gmap string pyval) (k : string) (v : pyval) :
  k = "max_length"%string ∨
  (default true auto = true ∧ (k = "editable"%string ∨ k = "blank"%string)) →
  (ShortUUIDField.init signature auto args (<[k := v]> kwargs)
     = ShortUUIDField.init signature auto args kwargs ∧
   ∀ self, ShortUUIDField.init signature auto args (<[k := v]> kwargs) = Ok self →
     max_length (ShortUUIDField.super self) = Some (PyInt 22) ∧
     (default true auto = true →
      editable (ShortUUIDField.super self) = Some (PyBool false) ∧
      blank (ShortUUIDField.super self) = Some (PyBool true))) ∧
  (PrefixShortUUIDField.init signature auto prefix args (<[k := v]> kwargs)
     = PrefixShortUUIDField.init signature auto prefix args kwargs ∧
   ∀ self, PrefixShortUUIDField.init signature auto prefix args (<[k := v]> kwargs) = Ok self →
     max_length (PrefixShortUUIDField.super self)
       = Some (PyInt (Z.of_nat (String.length (default "uu-"%string prefix)) + 8)) ∧
     (default true auto = true →
      editable (PrefixShortUUIDField.super self) = Some (PyBool false) ∧
      blank (PrefixShortUUIDField.super self) = Some (PyBool true))).
Proof.
  intros Hk. split; split.
  - by apply plain_init_ignores.
  - intros self Hself. by apply plain_init_config in Hself as (_ & ? & ?).
  - by apply prefix_init_ignores.
  - intros self Hself. by apply prefix_init_config in Hself as (_ & _ & ? & ?).
Qed.

Lemma C10_witness :
  ∃ plain prefixed,
    ShortUUIDField.init Field_signature None []
      {[ "max_length"%string := PyInt 64 ]} = Ok plain ∧
    max_length (ShortUUIDField.super plain) = Some (PyInt 22) ∧
    PrefixShortUUIDField.init Field_signature None (Some "order-"%string) []
      {[ "editable"%string := PyBool true ]} = Ok prefixed ∧
    editable (PrefixShortUUIDField.super prefixed) = Some (PyBool false) ∧
    max_length (PrefixShortUUIDField.super prefixed) = Some (PyInt 14).
Proof.
  destruct (C10_constructor_overrides_keywords Field_signature None None [] ∅
              "max_length" (PyInt 64) (or_introl eq_refl)) as [[Hsame Hforced] _].
  destruct (C10_constructor_overrides_keywords Field_signature None (Some "order-"%string)
              [] ∅ "editable" (PyBool true) (or_intror (conj eq_refl (or_introl eq_refl))))
    as [_ [Hsame' Hforced']].
  destruct (plain_init_succeeds None ∅) as [plain Hp].
  { rewrite dom_empty_L. apply empty_subseteq. }
  destruct (prefix_init_succeeds None (Some "order-"%string) ∅) as [prefixed Hq].
  { rewrite dom_empty_L. apply empty_subseteq. }
  rewrite <- Hsame in Hp. rewrite <- Hsame' in Hq.
  exists plain, prefixed.
  destruct (Hforced plain Hp) as [Hm _].
  destruct (Hforced' prefixed Hq) as [Hn He]. destruct (He eq_refl) as [He1 _].
  repeat split; assumption.
Defined.

(** * Further properties of the hooks *)

(** The three ways a save can go: the attribute cannot be read, the
    stored value is kept, or a value is generated. *)
Lemma plain_pre_save_cases (self : ShortUUIDField.t) (add : bool) (w : world) :
  (ShortUUIDField.pre_save self add w = (Raise AttributeError, w) ∧
   (attname (ShortUUIDField.super self) = None ∨
    ∃ name, attname (ShortUUIDField.super self) = Some name ∧
            model_instance w !! name = None)) ∨
  (∃ name value,
     attname (ShortUUIDField.super self) = Some name ∧
     model_instance w !! name = Some value ∧
     ShortUUIDField.auto self && negb (truthy value) = false ∧
     ShortUUIDField.pre_save self add w = (Ok value, w)) ∨
  (∃ name value u,
     attname (ShortUUIDField.super self) = Some name ∧
     model_instance w !! name = Some value ∧
     ShortUUIDField.auto self = true ∧ truthy value = false ∧ u < 2 ^ 128 ∧
     ShortUUIDField.pre_save self add w =
       (Ok (PyStr (shortuuid_encode u)),
        {| model_instance := <[name := PyStr (shortuuid_encode u)]> (model_instance w);
           urandom := {| source := source (urandom w);
                         consumed := S (consumed (urandom w)) |} |})).
Proof.
  destruct (attname (ShortUUIDField.super self)) as [name |] eqn:Hname;
    [destruct (model_instance w !! name) as [value |] eqn:Hvalue |].
  - destruct (ShortUUIDField.auto self && negb (truthy value)) eqn:Hcond.
    + right; right. apply andb_true_iff in Hcond as [Hauto Hempty].
      apply negb_true_iff in Hempty.
      destruct (plain_pre_save_generates self add w name value Hname Hvalue Hauto Hempty)
        as (u & w1 & Hrun & Hu & Hsave).
      destruct (uuid4_run w) as (u0 & _ & Hrun0).
      rewrite Hrun0 in Hrun. injection Hrun as -> <-.
      exists name, value, u. by repeat split.
    + right; left. exists name, value. repeat split; try done.
      by apply plain_pre_save_keeps with (name := name).
  - left. split; [| right; by exists name].
    unfold ShortUUIDField.pre_save. unfold mbind at 1, M_bind at 1.
    rewrite CharField_pre_save_raises by eauto. done.
  - left. split; [| by left].
    unfold ShortUUIDField.pre_save. unfold mbind at 1, M_bind at 1.
    rewrite CharField_pre_save_raises by eauto. done.
Qed.

Lemma prefix_pre_save_cases (self : PrefixShortUUIDField.t) (add : bool) (w : world) :
  (PrefixShortUUIDField.pre_save self add w = (Raise AttributeError, w) ∧
   (attname (PrefixShortUUIDField.super self) = None ∨
    ∃ name, attname (PrefixShortUUIDField.super self) = Some name ∧
            model_instance w !! name = None)) ∨
  (∃ name value,
     attname (PrefixShortUUIDField.super self) = Some name ∧
     model_instance w !! name = Some value ∧
     PrefixShortUUIDField.auto self && negb (truthy value) = false ∧
     PrefixShortUUIDField.pre_save self add w = (Ok value, w)) ∨
  (∃ name value u,
     attname (PrefixShortUUIDField.super self) = Some name ∧
     model_instance w !! name = Some value ∧
     PrefixShortUUIDField.auto self = true ∧ truthy value = false ∧ u < 2 ^ 128 ∧
     PrefixShortUUIDField.pre_save self add w =
       (Ok (PyStr (PrefixShortUUIDField.prefix_str self
                   +:+ slice_to 8 (shortuuid_encode u))),
        {| model_instance :=
             <[name := PyStr (PrefixShortUUIDField.prefix_str self
                              +:+ slice_to 8 (shortuuid_encode u))]> (model_instance w);
           urandom := {| source := source (urandom w);
                         consumed := S (consumed (urandom w)) |} |})).
Proof.
  destruct (attname (PrefixShortUUIDField.super self)) as [name |] eqn:Hname;
    [destruct (model_instance w !! name) as [value |] eqn:Hvalue |].
  - destruct (PrefixShortUUIDField.auto self && negb (truthy value)) eqn:Hcond.
    + right; right. apply andb_true_iff in Hcond as [Hauto Hempty].
      apply negb_true_iff in Hempty.
      destruct (prefix_pre_save_generates self add w name value Hname Hvalue Hauto Hempty)
        as (u & w1 & Hrun & Hu & Hsave).
      destruct (uuid4_run w) as (u0 & _ & Hrun0).
      rewrite Hrun0 in Hrun. injection Hrun as -> <-.
      exists name, value, u. by repeat split.
    + right; left. exists name, value. repeat split; try done.
      by apply prefix_pre_save_keeps with (name := name).
  - left. split; [| right; by exists name].
    unfold PrefixShortUUIDField.pre_save. unfold mbind at 1, M_bind at 1.
    rewrite CharField_pre_save_raises by eauto. done.
  - left. split; [| by left].
    unfold PrefixShortUUIDField.pre_save. unfold mbind at 1, M_bind at 1.
    rewrite CharField_pre_save_raises by eauto. done.
Qed.

(** X1. A save touches no attribute of the record other than the
    field's own: whatever the outcome (kept, generated or an exception),
    every attribute under another name reads as before. *)
Theorem X1_pre_save_leaves_other_attributes (add : bool) (w : world) (other : string) :
  (∀ self : ShortUUIDField.t,
     attname (ShortUUIDField.super self) ≠ Some other →
     model_instance (ShortUUIDField.pre_save self add w).2 !! other
       = model_instance w !! other) ∧
  (∀ self : PrefixShortUUIDField.t,
     attname (PrefixShortUUIDField.super self) ≠ Some other →
     model_instance (PrefixShortUUIDField.pre_save self add w).2 !! other
       = model_instance w !! other).
Proof.
  split; intros self Hother.
  - destruct (plain_pre_save_cases self add w)
      as [[-> _] | [(name & value & _ & _ & _ & ->)
                   | (name & value & u & Hname & _ & _ & _ & _ & ->)]];
      try done.
    cbn [snd model_instance]. apply lookup_insert_ne. congruence.
  - destruct (prefix_pre_save_cases self add w)
      as [[-> _] | [(name & value & _ & _ & _ & ->)
                   | (name & value & u & Hname & _ & _ & _ & _ & ->)]];
      try done.
    cbn [snd model_instance]. apply lookup_insert_ne. congruence.
Qed.

Lemma X1_witness :
  model_instance (ShortUUIDField.pre_save (example_plain true) true titled_record).2
    !! "title"%string = Some (PyStr "first post") ∧
  model_instance (PrefixShortUUIDField.pre_save (example_prefixed true) true titled_record).2
    !! "title"%string = Some (PyStr "first post").
Proof.
  destruct (X1_pre_save_leaves_other_attributes true titled_record "title") as [H1 H2].
  split.
  - rewrite (H1 (example_plain true)); [reflexivity | discriminate].
  - rewrite (H2 (example_prefixed true)); [reflexivity | discriminate].
Defined.

(** X2. A save reads the random source at most once and never changes
    what later reads yield. If it reads nothing, the whole state is as
    before; if it reads, it read exactly once, the field has [auto] set,
    and the result is a generated text. *)
Theorem X2_pre_save_reads_randomness_once (add : bool) (w : world) :
  (∀ self : ShortUUIDField.t,
     let '(r, w') := ShortUUIDField.pre_save self add w in
     source (urandom w') = source (urandom w) ∧
     ((consumed (urandom w') = consumed (urandom w) ∧ w' = w) ∨
      (consumed (urandom w') = S (consumed (urandom w)) ∧
       ShortUUIDField.auto self = true ∧ ∃ s, r = Ok (PyStr s)))) ∧
  (∀ self : PrefixShortUUIDField.t,
     let '(r, w') := PrefixShortUUIDField.pre_save self add w in
     source (urandom w') = source (urandom w) ∧
     ((consumed (urandom w') = consumed (urandom w) ∧ w' = w) ∨
      (consumed (urandom w') = S (consumed (urandom w)) ∧
       PrefixShortUUIDField.auto self = true ∧ ∃ s, r = Ok (PyStr s)))).
Proof.
  split; intros self.
  - destruct (plain_pre_save_cases self add w)
      as [[-> _] | [(name & value & _ & _ & _ & ->)
                   | (name & value & u & _ & _ & Hauto & _ & _ & ->)]];
      [split; [done | by left] .. |].
    split; [done |]. right. repeat split; [done |]. by eexists.
  - destruct (prefix_pre_save_cases self add w)
      as [[-> _] | [(name & value & _ & _ & _ & ->)
                   | (name & value & u & _ & _ & Hauto & _ & _ & ->)]];
      [split; [done | by left] .. |].
    split; [done |]. right. repeat split; [done |]. by eexists.
Qed.

(** X3. Whenever a save succeeds, the value it returns is the value the
    record holds under the field's attribute afterwards, for either
    variant and whether the value was kept or generated. *)
Theorem X3_pre_save_returns_stored_value (add : bool) (w w' : world) (v : pyval) :
  (∀ self : ShortUUIDField.t,
     ShortUUIDField.pre_save self add w = (Ok v, w') →
     ∃ name, attname (ShortUUIDField.super self) = Some name ∧
             model_instance w' !! name = Some v) ∧
  (∀ self : PrefixShortUUIDField.t,
     PrefixShortUUIDField.pre_save self add w = (Ok v, w') →
     ∃ name, attname (PrefixShortUUIDField.super self) = Some name ∧
             model_instance w' !! name = Some v).
Proof.
  split; intros self.
  - destruct (plain_pre_save_cases self add w)
      as [[-> _] | [(name & value & Hname & Hvalue & _ & ->)
                   | (name & value & u & Hname & _ & _ & _ & _ & ->)]];
      [done | ..]; intros [= <- <-]; exists name; (split; [done |]); [done |].
    cbn [model_instance]. apply lookup_insert_eq.
  - destruct (prefix_pre_save_cases self add w)
      as [[-> _] | [(name & value & Hname & Hvalue & _ & ->)
                   | (name & value & u & Hname & _ & _ & _ & _ & ->)]];
      [done | ..]; intros [= <- <-]; exists name; (split; [done |]); [done |].
    cbn [model_instance]. apply lookup_insert_eq.
Qed.

Lemma X3_witness :
  (∃ name, attname (ShortUUIDField.super (example_plain false)) = Some name ∧
           model_instance fresh_record !! name = Some (PyStr EmptyString)) ∧
  (∃ name, attname (PrefixShortUUIDField.super (example_prefixed true)) = Some name ∧
           model_instance saved_record !! name = Some (PyStr "29XR3cSsr7Bw5vYPhUTRpZ")).
Proof.
  split.
  - apply (proj1 (X3_pre_save_returns_stored_value true fresh_record fresh_record
                    (PyStr EmptyString)) (example_plain false)).
    reflexivity.
  - apply (proj2 (X3_pre_save_returns_stored_value false saved_record saved_record
                    (PyStr "29XR3cSsr7Bw5vYPhUTRpZ")) (example_prefixed true)).
    reflexivity.
Defined.

(** X4. A field with [auto] set never lets an empty value through: if
    its save succeeds, the value returned (and stored) is true in
    Python's sense, so it is neither [None] nor the empty string. *)
Theorem X4_auto_save_yields_nonempty (add : bool) (w w' : world) (v : pyval) :
  (∀ self : ShortUUIDField.t,
     ShortUUIDField.auto self = true →
     ShortUUIDField.pre_save self add w = (Ok v, w') →
     truthy v = true ∧ v ≠ PyNone ∧ v ≠ PyStr EmptyString) ∧
  (∀ self : PrefixShortUUIDField.t,
     PrefixShortUUIDField.auto self = true →
     PrefixShortUUIDField.pre_save self add w = (Ok v, w') →
     truthy v = true ∧ v ≠ PyNone ∧ v ≠ PyStr EmptyString).
Proof.
  assert (∀ x, truthy x = true → truthy x = true ∧ x ≠ PyNone ∧ x ≠ PyStr EmptyString)
    as Hnonempty by (intros x Hx; repeat split; [done | ..]; by intros ->).
  split; intros self Hauto.
  - destruct (plain_pre_save_cases self add w)
      as [[-> _] | [(name & value & _ & _ & Hcond & ->)
                   | (name & value & u & _ & _ & _ & _ & Hu & ->)]];
      [done | ..]; intros [= <- <-]; apply Hnonempty.
    + rewrite Hauto in Hcond. simpl in Hcond. by apply negb_false_iff in Hcond.
    + apply truthy_PyStr. rewrite shortuuid_encode_length by done. lia.
  - destruct (prefix_pre_save_cases self add w)
      as [[-> _] | [(name & value & _ & _ & Hcond & ->)
                   | (name & value & u & _ & _ & _ & _ & Hu & ->)]];
      [done | ..]; intros [= <- <-]; apply Hnonempty.
    + rewrite Hauto in Hcond. simpl in Hcond. by apply negb_false_iff in Hcond.
    + apply truthy_PyStr. by apply prefixed_value_nonempty.
Qed.

Lemma X4_witness :
  truthy (PyStr "29XR3cSsr7Bw5vYPhUTRpZ") = true ∧
  truthy (PyStr "uu-29XR3cSs") = true.
Proof.
  split.
  - eapply (proj1 (X4_auto_save_yields_nonempty true fresh_record _ _)
              (example_plain true)); [reflexivity | by vm_compute].
  - eapply (proj2 (X4_auto_save_yields_nonempty true fresh_record _ _)
              (example_prefixed true)); [reflexivity | by vm_compute].
Defined.

(** X5. The only way a save fails is that the field's attribute cannot
    be read (the field was never attached, or the record has no such
    attribute): the exception is then [AttributeError], nothing was
    changed and no randomness was read. Conversely, with the attribute
    present the save always succeeds. *)
Theorem X5_pre_save_fails_only_on_missing_attribute (add : bool) (w : world) :
  (∀ (self : ShortUUIDField.t) e w',
     ShortUUIDField.pre_save self add w = (Raise e, w') →
     e = AttributeError ∧ w' = w ∧
     (attname (ShortUUIDField.super self) = None ∨
      ∃ name, attname (ShortUUIDField.super self) = Some name ∧
              model_instance w !! name = None)) ∧
  (∀ (self : PrefixShortUUIDField.t) e w',
     PrefixShortUUIDField.pre_save self add w = (Raise e, w') →
     e = AttributeError ∧ w' = w ∧
     (attname (PrefixShortUUIDField.super self) = None ∨
      ∃ name, attname (PrefixShortUUIDField.super self) = Some name ∧
              model_instance w !! name = None)) ∧
  (∀ (self : ShortUUIDField.t) name,
     attname (ShortUUIDField.super self) = Some name →
     is_Some (model_instance w !! name) →
     ∃ v w', ShortUUIDField.pre_save self add w = (Ok v, w')) ∧
  (∀ (self : PrefixShortUUIDField.t) name,
     attname (PrefixShortUUIDField.super self) = Some name →
     is_Some (model_instance w !! name) →
     ∃ v w', PrefixShortUUIDField.pre_save self add w = (Ok v, w')).
Proof.
  repeat split.
  - destruct (plain_pre_save_cases self add w)
      as [[Hsave _] | [(? & ? & _ & _ & _ & Hsave) | (? & ? & ? & _ & _ & _ & _ & _ & Hsave)]];
      congruence.
  - destruct (plain_pre_save_cases self add w)
      as [[Hsave _] | [(? & ? & _ & _ & _ & Hsave) | (? & ? & ? & _ & _ & _ & _ & _ & Hsave)]];
      congruence.
  - destruct (plain_pre_save_cases self add w)
      as [[Hsave Hwhy] | [(? & ? & _ & _ & _ & Hsave) | (? & ? & ? & _ & _ & _ & _ & _ & Hsave)]];
      [done | congruence ..].
  - destruct (prefix_pre_save_cases self add w)
      as [[Hsave _] | [(? & ? & _ & _ & _ & Hsave) | (? & ? & ? & _ & _ & _ & _ & _ & Hsave)]];
      congruence.
  - destruct (prefix_pre_save_cases self add w)
      as [[Hsave _] | [(? & ? & _ & _ & _ & Hsave) | (? & ? & ? & _ & _ & _ & _ & _ & Hsave)]];
      congruence.
  - destruct (prefix_pre_save_cases self add w)
      as [[Hsave Hwhy] | [(? & ? & _ & _ & _ & Hsave) | (? & ? & ? & _ & _ & _ & _ & _ & Hsave)]];
      [done | congruence ..].
  - intros self name Hname [value Hvalue].
    destruct (plain_pre_save_cases self add w)
      as [[_ [Hnone | (n & Hn & Hnone)]]
         | [(? & ? & _ & _ & _ & Hsave) | (? & ? & ? & _ & _ & _ & _ & _ & Hsave)]];
      [congruence | congruence | by eauto ..].
  - intros self name Hname [value Hvalue].
    destruct (prefix_pre_save_cases self add w)
      as [[_ [Hnone | (n & Hn & Hnone)]]
         | [(? & ? & _ & _ & _ & Hsave) | (? & ? & ? & _ & _ & _ & _ & _ & Hsave)]];
      [congruence | congruence | by eauto ..].
Qed.

Lemma X5_witness :
  (∃ v w', ShortUUIDField.pre_save (example_plain true) true fresh_record = (Ok v, w')) ∧
  (∃ v w', PrefixShortUUIDField.pre_save (example_prefixed true) true fresh_record
           = (Ok v, w')) ∧
  (let never_attached :=
     {| ShortUUIDField.auto := true;
        ShortUUIDField.super := {| options := ∅; attname := None |} |} in
   attname (ShortUUIDField.super never_attached) = None ∨
   ∃ name, attname (ShortUUIDField.super never_attached) = Some name ∧
           model_instance fresh_record !! name = None) ∧
  (let other_attribute :=
     {| PrefixShortUUIDField.auto := true; PrefixShortUUIDField.prefix_str := "uu-";
        PrefixShortUUIDField.super := {| options := ∅; attname := Some "slug"%string |} |} in
   attname (PrefixShortUUIDField.super other_attribute) = None ∨
   ∃ name, attname (PrefixShortUUIDField.super other_attribute) = Some name ∧
           model_instance fresh_record !! name = None).
Proof.
  destruct (X5_pre_save_fails_only_on_missing_attribute true fresh_record)
    as (Hplain & Hprefixed & Hok & Hok').
  split; [apply (Hok (example_plain true) "uuid"%string); [reflexivity | by eexists] |].
  split; [apply (Hok' (example_prefixed true) "uuid"%string); [reflexivity | by eexists] |].
  split.
  - cbv zeta. eapply Hplain. reflexivity.
  - cbv zeta. eapply Hprefixed. reflexivity.
Defined.

(** * Further properties of the constructors *)

Lemma bind_call_collision (signature : list (string * pyval)) (args : list pyval)
    (kwargs : gmap string pyval) (i : nat) (p : string) :
  signature.*1 !! i = Some p → (i < List.length args)%nat → is_Some (kwargs !! p) →
  bind_call signature args kwargs = Raise TypeError.
Proof.
  intros Hp Hi Hkw. unfold bind_call. case_decide; [done |].
  assert (existsb (λ p, bool_decide (is_Some (kwargs !! p)))
                  (take (List.length args) signature.*1) = true) as ->; [| done].
  apply existsb_exists. exists p. split; [| by apply bool_decide_eq_true_2].
  apply list_elem_of_In, elem_of_take. by exists i.
Qed.

(** The keywords the constructors hand to the base class always hold the
    forced ones. *)
Lemma forced_keyword_present (auto : bool) (n : Z) (kwargs : gmap string pyval)
    (p : string) :
  p = "max_length"%string ∨ (auto = true ∧ (p = "editable"%string ∨ p = "blank"%string)) →
  is_Some ((if auto
            then <["blank"%string := PyBool true]>
                   (<["editable"%string := PyBool false]>
                      (<["max_length"%string := PyInt n]> kwargs))
            else <["max_length"%string := PyInt n]> kwargs) !! p).
Proof.
  intros [-> | [-> [-> | ->]]]; [destruct auto |..]; by simplify_map_eq.
Qed.

(** X6. Keywords that the constructor does not force are handed to the
    base class untouched: every keyword other than [max_length], and
    other than [editable] and [blank] when [auto] is set, is an option of
    the constructed field with the caller's value. In particular a field
    with [auto] off keeps the caller's [editable] and [blank]. *)
Theorem X6_constructor_passes_other_keywords
    (signature : list (string * pyval)) (auto : option bool) (prefix : option string)
    (args : list pyval) (kwargs : gmap string pyval) (k : string) (v : pyval) :
  kwargs !! k = Some v →
  k ≠ "max_length"%string →
  default true auto = false ∨ (k ≠ "editable"%string ∧ k ≠ "blank"%string) →
  (∀ self, ShortUUIDField.init signature auto args kwargs = Ok self →
     options (ShortUUIDField.super self) !! k = Some v) ∧
  (∀ self, PrefixShortUUIDField.init signature auto prefix args kwargs = Ok self →
     options (PrefixShortUUIDField.super self) !! k = Some v).
Proof.
  intros Hk Hmax Hother. split; intros self.
  - unfold ShortUUIDField.init.
    destruct (CharField_init _ _ _) as [base |] eqn:Hbase; [| done].
    intros [= <-]. cbn [ShortUUIDField.super].
    eapply CharField_init_keyword; [exact Hbase |].
    destruct Hother as [-> | [He Hb]]; [| destruct (default true auto)];
      by simplify_map_eq.
  - unfold PrefixShortUUIDField.init.
    destruct (CharField_init _ _ _) as [base |] eqn:Hbase; [| done].
    intros [= <-]. cbn [PrefixShortUUIDField.super].
    eapply CharField_init_keyword; [exact Hbase |].
    destruct Hother as [-> | [He Hb]]; [| destruct (default true auto)];
      by simplify_map_eq.
Qed.

Lemma X6_witness :
  ∃ plain prefixed,
    ShortUUIDField.init Field_signature (Some false) []
      {[ "blank"%string := PyBool true ]} = Ok plain ∧
    blank (ShortUUIDField.super plain) = Some (PyBool true) ∧
    PrefixShortUUIDField.init Field_signature None None []
      {[ "db_index"%string := PyBool true ]} = Ok prefixed ∧
    options (PrefixShortUUIDField.super prefixed) !! "db_index"%string
      = Some (PyBool true).
Proof.
  destruct (plain_init_succeeds (Some false) {[ "blank"%string := PyBool true ]})
    as [plain Hp]; [Field_parameter |].
  destruct (prefix_init_succeeds None None {[ "db_index"%string := PyBool true ]})
    as [prefixed Hq]; [Field_parameter |].
  exists plain, prefixed.
  split; [exact Hp |]. split.
  - refine (proj1 (X6_constructor_passes_other_keywords Field_signature (Some false) None
                     [] {[ "blank"%string := PyBool true ]} "blank" (PyBool true)
                     _ _ _) plain Hp); [reflexivity | discriminate | by left].
  - split; [exact Hq |].
    refine (proj2 (X6_constructor_passes_other_keywords Field_signature None None
                     [] {[ "db_index"%string := PyBool true ]} "db_index" (PyBool true)
                     _ _ _) prefixed Hq);
      [reflexivity | discriminate | right; split; discriminate].
Defined.

(** X7. The forced settings cannot be given positionally either: when
    the positional arguments reach the base parameter [max_length] (or,
    with [auto] set, [editable] or [blank]), the keyword the constructor
    adds collides with it and construction raises [TypeError]. *)
Theorem X7_positional_forced_setting_raises
    (signature : list (string * pyval)) (auto : option bool) (prefix : option string)
    (args : list pyval) (kwargs : gmap string pyval) (i : nat) (p : string) :
  signature.*1 !! i = Some p →
  (i < List.length args)%nat →
  p = "max_length"%string ∨
  (default true auto = true ∧ (p = "editable"%string ∨ p = "blank"%string)) →
  ShortUUIDField.init signature auto args kwargs = Raise TypeError ∧
  PrefixShortUUIDField.init signature auto prefix args kwargs = Raise TypeError.
Proof.
  intros Hp Hi Hforced. split.
  - unfold ShortUUIDField.init, CharField_init. cbv zeta.
    erewrite bind_call_collision; [done | exact Hp | exact Hi |].
    by apply forced_keyword_present.
  - unfold PrefixShortUUIDField.init, CharField_init. cbv zeta.
    erewrite bind_call_collision; [done | exact Hp | exact Hi |].
    by apply forced_keyword_present.
Qed.

Lemma X7_witness :
  ShortUUIDField.init Field_signature (Some false)
    [PyStr "identifier"; PyStr "uuid"; PyBool false; PyInt 30] ∅ = Raise TypeError ∧
  PrefixShortUUIDField.init Field_signature (Some false) (Some "uu-"%string)
    [PyStr "identifier"; PyStr "uuid"; PyBool false; PyInt 30] ∅ = Raise TypeError.
Proof.
  apply (X7_positional_forced_setting_raises Field_signature (Some false)
           (Some "uu-"%string)
           [PyStr "identifier"; PyStr "uuid"; PyBool false; PyInt 30] ∅ 3 "max_length");
    [reflexivity | simpl; lia | by left].
Defined.

(** * Further properties of module initialisation *)

Section SouthInstalled.
Context {registry : Type}.
Variable add_introspection_rules : @add_introspection_rules_t registry.

Let plain_pattern : list string := ["^shortuuidfield\.fields\.ShortUUIDField"%string].
Let prefixed_pattern : list string :=
  ["^prefixshortuuidfield\.fields\.PrefixShortUUIDField"%string].

(** X8. With South installed, initialisation makes two registrations, in
    the order of the source and each with an empty rule list: first the
    pattern for [ShortUUIDField], then, on the state the first call left,
    the pattern for [PrefixShortUUIDField]; it ends in the state the
    second call left. *)
Theorem X8_module_init_registers_in_order (reg reg1 reg2 : registry) :
  add_introspection_rules [] plain_pattern reg = (Ok tt, reg1) →
  add_introspection_rules [] prefixed_pattern reg1 = (Ok tt, reg2) →
  module_init (Some add_introspection_rules) reg = (Ok tt, reg2).
Proof.
  intros H1 H2. unfold module_init, try_except, import_add_introspection_rules.
  unfold mbind, M_bind, mret, M_ret.
  fold plain_pattern prefixed_pattern. by rewrite H1, H2.
Qed.

(** X9. Initialisation never lets an [ImportError] out, whatever South
    does: also one raised inside a registration call is caught, and the
    registrations made until then stay. Whatever is raised instead is an
    exception other than [ImportError]. *)
Theorem X9_module_init_never_raises_ImportError
    (south : option (@add_introspection_rules_t registry)) (reg : registry) :
  (module_init south reg).1 ≠ Raise ImportError ∧
  (∀ reg1, add_introspection_rules [] plain_pattern reg = (Raise ImportError, reg1) →
     module_init (Some add_introspection_rules) reg = (Ok tt, reg1)) ∧
  (∀ reg1 reg2,
     add_introspection_rules [] plain_pattern reg = (Ok tt, reg1) →
     add_introspection_rules [] prefixed_pattern reg1 = (Raise ImportError, reg2) →
     module_init (Some add_introspection_rules) reg = (Ok tt, reg2)).
Proof.
  split; [| split].
  - unfold module_init, try_except, import_add_introspection_rules.
    unfold mbind, M_bind, mret, M_ret, raise.
    destruct south as [f |]; [| by simpl].
    destruct (f [] _ reg) as [[[] | e] reg1].
    + destruct (f [] _ reg1) as [[[] | e] reg2]; [done |].
      destruct (decide (e = ImportError)); simpl; congruence.
    + destruct (decide (e = ImportError)); simpl; congruence.
  - intros reg1 H1. unfold module_init, try_except, import_add_introspection_rules.
    unfold mbind, M_bind, mret, M_ret. fold plain_pattern. by rewrite H1.
  - intros reg1 reg2 H1 H2.
    unfold module_init, try_except, import_add_introspection_rules.
    unfold mbind, M_bind, mret, M_ret. fold plain_pattern prefixed_pattern.
    by rewrite H1, H2.
Qed.

End SouthInstalled.

Lemma X8_witness :
  module_init (Some example_add_introspection_rules) []
    = (Ok tt, [ ["^shortuuidfield\.fields\.ShortUUIDField"%string];
                ["^prefixshortuuidfield\.fields\.PrefixShortUUIDField"%string] ]).
Proof.
  apply (X8_module_init_registers_in_order example_add_introspection_rules []
           [ ["^shortuuidfield\.fields\.ShortUUIDField"%string] ]); reflexivity.
Defined.

Lemma X9_witness :
  module_init (Some (failing_add_introspection_rules ImportError)) []
    = (Ok tt, [ ["^shortuuidfield\.fields\.ShortUUIDField"%string] ]).
Proof.
  apply (X9_module_init_never_raises_ImportError
           (failing_add_introspection_rules ImportError) None []).
  reflexivity.
Defined.


(** * Constructed fields at work *)

(** X11. What a constructed field generates fits the column it declared:
    for a field built by the constructor with [auto] set and attached
    under [name], the text generated for an empty record has exactly the
    [max_length] the constructor configured (22 for the plain variant,
    [len(prefix_str) + 8] for the prefixed one). *)
Theorem X11_generated_value_fits_max_length
    (signature : list (string * pyval)) (auto : option bool) (prefix : option string)
    (args : list pyval) (kwargs : gmap string pyval)
    (name : string) (add : bool) (w : world) (value : pyval) :
  default true auto = true →
  model_instance w !! name = Some value →
  truthy value = false →
  (∀ self, ShortUUIDField.init signature auto args kwargs = Ok self →
     ∃ s w',
       ShortUUIDField.pre_save (ShortUUIDField.contribute_to_class self name) add w
         = (Ok (PyStr s), w') ∧
       max_length (ShortUUIDField.super self)
         = Some (PyInt (Z.of_nat (String.length s)))) ∧
  (∀ self, PrefixShortUUIDField.init signature auto prefix args kwargs = Ok self →
     ∃ s w',
       PrefixShortUUIDField.pre_save
         (PrefixShortUUIDField.contribute_to_class self name) add w
         = (Ok (PyStr s), w') ∧
       max_length (PrefixShortUUIDField.super self)
         = Some (PyInt (Z.of_nat (String.length s)))).
Proof.
  intros Hauto Hvalue Hempty. split; intros self Hself.
  - apply plain_init_config in Hself as (Ha & Hmax & _). rewrite Hauto in Ha.
    destruct (plain_pre_save_generates (ShortUUIDField.contribute_to_class self name)
                add w name value eq_refl Hvalue Ha Hempty)
      as (u & w1 & _ & Hu & Hsave).
    eexists _, _. split; [exact Hsave |].
    by rewrite shortuuid_encode_length.
  - apply prefix_init_config in Hself as (Ha & Hprefix & Hmax & _).
    rewrite Hauto in Ha.
    destruct (prefix_pre_save_generates
                (PrefixShortUUIDField.contribute_to_class self name)
                add w name value eq_refl Hvalue Ha Hempty)
      as (u & w1 & _ & Hu & Hsave).
    eexists _, _. split; [exact Hsave |].
    cbn [PrefixShortUUIDField.contribute_to_class PrefixShortUUIDField.prefix_str].
    rewrite prefixed_value_length, Hprefix, Hmax by done.
    do 2 f_equal. lia.
Qed.

Lemma X11_witness :
  ∃ plain prefixed s s' w1 w2,
    ShortUUIDField.init Field_signature None [] ∅ = Ok plain ∧
    ShortUUIDField.pre_save (ShortUUIDField.contribute_to_class plain "uuid") true
      fresh_record = (Ok (PyStr s), w1) ∧
    max_length (ShortUUIDField.super plain) = Some (PyInt (Z.of_nat (String.length s))) ∧
    PrefixShortUUIDField.init Field_signature None (Some "order-"%string) [] ∅
      = Ok prefixed ∧
    PrefixShortUUIDField.pre_save
      (PrefixShortUUIDField.contribute_to_class prefixed "uuid") true fresh_record
      = (Ok (PyStr s'), w2) ∧
    max_length (PrefixShortUUIDField.super prefixed)
      = Some (PyInt (Z.of_nat (String.length s'))).
Proof.
  destruct (plain_init_succeeds None ∅) as [plain Hp].
  { rewrite dom_empty_L. apply empty_subseteq. }
  destruct (prefix_init_succeeds None (Some "order-"%string) ∅) as [prefixed Hq].
  { rewrite dom_empty_L. apply empty_subseteq. }
  destruct (X11_generated_value_fits_max_length Field_signature None
              (Some "order-"%string) [] ∅ "uuid" true fresh_record (PyStr EmptyString)
              eq_refl eq_refl eq_refl) as [Hplain Hprefixed].
  destruct (Hplain plain Hp) as (s & w1 & Hsave & Hlen).
  destruct (Hprefixed prefixed Hq) as (s' & w2 & Hsave' & Hlen').
  exists plain, prefixed, s, s', w1, w2. repeat split; assumption.
Defined.

(** X12. A field constructed without [auto], or with [auto=True], has no
    form field whatever keyword arguments [formfield] is given; a field
    constructed with [auto=False] has the form field the base class
    builds for the options the constructor handed to it. *)
Theorem X12_constructed_field_formfield {FormField : Type}
    (CharField_formfield : CharField → gmap string pyval → FormField)
    (signature : list (string * pyval)) (auto : option bool) (prefix : option string)
    (args : list pyval) (kwargs form_kwargs : gmap string pyval) :
  (∀ self, ShortUUIDField.init signature auto args kwargs = Ok self →
     ShortUUIDField.formfield CharField_formfield self form_kwargs
       = match auto with
         | Some false => Some (CharField_formfield (ShortUUIDField.super self) form_kwargs)
         | _ => None
         end) ∧
  (∀ self, PrefixShortUUIDField.init signature auto prefix args kwargs = Ok self →
     PrefixShortUUIDField.formfield CharField_formfield self form_kwargs
       = match auto with
         | Some false =>
             Some (CharField_formfield (PrefixShortUUIDField.super self) form_kwargs)
         | _ => None
         end).
Proof.
  split; intros self Hself.
  - apply plain_init_config in Hself as (Ha & _).
    unfold ShortUUIDField.formfield. rewrite Ha. by destruct auto as [[] |].
  - apply prefix_init_config in Hself as (Ha & _).
    unfold PrefixShortUUIDField.formfield. rewrite Ha. by destruct auto as [[] |].
Qed.

Lemma X12_witness :
  ∃ plain prefixed,
    ShortUUIDField.init Field_signature None [] ∅ = Ok plain ∧
    ShortUUIDField.formfield example_CharField_formfield plain
      {[ "label"%string := PyStr "Identifier" ]} = None ∧
    PrefixShortUUIDField.init Field_signature (Some false) None [] ∅ = Ok prefixed ∧
    PrefixShortUUIDField.formfield example_CharField_formfield prefixed ∅
      = Some (example_CharField_formfield (PrefixShortUUIDField.super prefixed) ∅).
Proof.
  destruct (plain_init_succeeds None ∅) as [plain Hp].
  { rewrite dom_empty_L. apply empty_subseteq. }
  destruct (prefix_init_succeeds (Some false) None ∅) as [prefixed Hq].
  { rewrite dom_empty_L. apply empty_subseteq. }
  exists plain, prefixed.
  split; [exact Hp |]. split.
  - exact (proj1 (X12_constructed_field_formfield example_CharField_formfield
                    Field_signature None None [] ∅
                    {[ "label"%string := PyStr "Identifier" ]}) plain Hp).
  - split; [exact Hq |].
    exact (proj2 (X12_constructed_field_formfield example_CharField_formfield
                    Field_signature (Some false) None [] ∅ ∅) prefixed Hq).
Defined.
